(** * SA-1B fast downloader: a shallow embedding of [downloader.py]

    The development follows the source file function by function:
    [download_file] (one resumable HTTP GET), [load_tsv] and
    [iterate_retry] (the work queue), and [download_task] (the retry loop
    with exponential backoff).

    Conventions.
    - A Python [str] is a [string]: a sequence of 8-bit characters.  This is
      exact for ASCII text; whitespace outside ASCII is not modelled.
    - The disk is a finite map from paths to file contents.  Operating-system
      failures (permissions, a full disk) are outside the model: the
      exceptions that arise are the ones the source raises itself, the
      [ValueError] of [int()] and the ones of the HTTP transport.
    - Every call of [requests.get] is answered by an [http_result] chosen by
      the environment; theorems quantify over all of them.
    - Observable actions (requests, file opens and writes, printed lines,
      sleeps) are recorded, in order, in the [trace] of the [world]. *)

From Stdlib Require Import ZArith QArith Floats String Ascii List Lia.
From Stdlib.Strings Require Import Byte.
From stdpp Require Import gmap strings list sorting pretty.
From Equations Require Import Equations.

Local Open Scope string_scope.
Local Open Scope Z_scope.
Local Open Scope list_scope.

(* ===================================================================== *)
(** * Strings and paths ([str] methods, [os.path]) *)
(* ===================================================================== *)

Module PyStr.

(** [str.isspace] on the ASCII range: TAB, LF, VT, FF, CR, FS, GS, RS, US
    and the space. *)
Definition isspace (c : ascii) : bool :=
  let n := N_of_ascii c in
  ((9 <=? n) && (n <=? 13) || (28 <=? n) && (n <=? 32))%N.

Fixpoint lstrip (s : string) : string :=
  match s with
  | String c rest => if isspace c then lstrip rest else s
  | EmptyString => EmptyString
  end.

(** Removes trailing whitespace: a character is dropped exactly when it is
    whitespace and everything after it has been dropped. *)
Fixpoint rstrip (s : string) : string :=
  match s with
  | EmptyString => EmptyString
  | String c rest =>
      match rstrip rest with
      | EmptyString => if isspace c then EmptyString else String c EmptyString
      | kept => String c kept
      end
  end.

(** [s.strip()] *)
Definition strip (s : string) : string := rstrip (lstrip s).

(** [s.split(sep)] for a one-character separator: the fields between the
    separators, always at least one field. *)
Fixpoint split (sep : ascii) (s : string) : list string :=
  match s with
  | EmptyString => [EmptyString]
  | String c rest =>
      if Ascii.eqb c sep then EmptyString :: split sep rest
      else match split sep rest with
           | field :: fields => String c field :: fields
           | [] => [String c EmptyString]
           end
  end.

Fixpoint rev_string (s : string) : string :=
  match s with
  | EmptyString => EmptyString
  | String c rest => rev_string rest +:+ String c EmptyString
  end.

(** [s.endswith(suffix)] *)
Definition endswith (s suffix : string) : bool :=
  String.prefix (rev_string suffix) (rev_string s).

(** [s.startswith(p)] *)
Definition startswith (s p : string) : bool := String.prefix p s.

(** Truthiness of a [str]: the empty string is false. *)
Definition truthy (s : string) : bool :=
  match s with EmptyString => false | String _ _ => true end.

(** [sorted] on strings: code-point order, here [String.leb]. *)
Definition str_le (a b : string) : Prop := String.leb a b = true.

#[global] Instance str_le_dec : RelDecision str_le :=
  fun a b => decide (String.leb a b = true).

Definition sorted (l : list string) : list string := merge_sort str_le l.

End PyStr.

Module OsPath.

(** [p[:i], p[i:]] for [i = p.rfind('/') + 1]: the head keeps the last
    slash. *)
Fixpoint split_at_last_slash (p : string) : string * string :=
  match p with
  | EmptyString => (EmptyString, EmptyString)
  | String c rest =>
      match split_at_last_slash rest with
      | (EmptyString, tail) =>
          if Ascii.eqb c "/" then (String c EmptyString, tail)
          else (EmptyString, String c tail)
      | (head, tail) => (String c head, tail)
      end
  end.

Fixpoint rstrip_slashes (s : string) : string :=
  match s with
  | EmptyString => EmptyString
  | String c rest =>
      match rstrip_slashes rest with
      | EmptyString => if Ascii.eqb c "/" then EmptyString else String c EmptyString
      | kept => String c kept
      end
  end.

(** [os.path.basename] (posixpath) *)
Definition basename (p : string) : string := snd (split_at_last_slash p).

(** [os.path.dirname] (posixpath): the head without its trailing slashes,
    unless it consists of slashes only. *)
Definition dirname (p : string) : string :=
  let head := fst (split_at_last_slash p) in
  match rstrip_slashes head with
  | EmptyString => head
  | stripped => stripped
  end.

(** [os.path.join(a, b)] (posixpath, two components) *)
Definition join (a b : string) : string :=
  if PyStr.startswith b "/" then b
  else if negb (PyStr.truthy a) || PyStr.endswith a "/" then a +:+ b
  else a +:+ "/" +:+ b.

End OsPath.

(* ===================================================================== *)
(** * The world: disk, trace, exceptions *)
(* ===================================================================== *)

(** The modes the source opens files with: ['wb'], ['ab'] and ['a']. *)
Inductive open_mode := ModeWB | ModeAB | ModeA.

(** The exceptions of the program, all instances of Python's [Exception]:
    the two [raise Exception(...)] of [download_file], the [ValueError] of
    [int()], what [requests] raises, and the [OverflowError] of an [int]
    too large for a [float]. *)
Inductive exn :=
| UnexpectedExit (current_size total_size : Z)
| BadStatus (status_code : Z)
| ValueError
| RequestException (detail : string)
| OverflowError.

(** The lines the program prints, one constructor per [print] call. *)
Inductive message :=
| MsgCompleted (local_filename : string)
| MsgAlreadyCompleted (local_filename : string)
| MsgError (url : string) (e : exn)
| MsgInvalidLine (line : string)
| MsgTsvNotFound
| MsgNoRetryFile
| MsgRetryFileEmpty
| MsgFound (n : nat)
| MsgNoURL (tar : string)
| MsgStarting (tar url : string)
| MsgExceeded (tar : string)
| MsgRetry (retries max_retries : Z) (tar : string) (sleep_time : float) (e : exn).

Inductive event :=
| EvMakedirs (dir : string)
| EvGet (url : string) (headers : list (string * string))
| EvTqdm (total : option Z) (initial : Z) (desc : string)
| EvOpen (path : string) (mode : open_mode)
| EvWrite (path : string) (data : list Byte.byte)
| EvUpdate (n : Z)
| EvWriteText (path : string) (text : string)
| EvPrint (m : message)
| EvSleep (secs : float).

Record world := World {
  disk : gmap string (list Byte.byte);
  trace : list event
}.

(** Computations: state passing over the world, with exceptions. *)
Definition M (A : Type) : Type := world -> (A + exn) * world.

Definition ret {A} (a : A) : M A := fun w => (inl a, w).
Definition raise {A} (e : exn) : M A := fun w => (inr e, w).
Definition bind {A B} (c : M A) (k : A -> M B) : M B :=
  fun w => match c w with
           | (inl a, w1) => k a w1
           | (inr e, w1) => (inr e, w1)
           end.
(** [try: body  except Exception as e: handler e] *)
Definition try_except {A} (body : M A) (handler : exn -> M A) : M A :=
  fun w => match body w with
           | (inl a, w1) => (inl a, w1)
           | (inr e, w1) => handler e w1
           end.

Declare Scope py_scope.
Delimit Scope py_scope with py.
Notation "x <- c ;; k" := (bind c (fun x => k))
  (at level 100, c at next level, right associativity) : py_scope.
Notation "c ;; k" := (bind c (fun _ => k))
  (at level 100, right associativity) : py_scope.
Local Open Scope py_scope.

Definition emit (e : event) : M unit :=
  fun w => (inl tt, World (disk w) (trace w ++ [e])).
Definition print (m : message) : M unit := emit (EvPrint m).

(** [os.path.getsize(p) if os.path.exists(p) else 0] *)
Definition size_on_disk (d : gmap string (list Byte.byte)) (path : string) : Z :=
  match d !! path with
  | Some content => Z.of_nat (length content)
  | None => 0
  end.
Definition getsize_or_zero (path : string) : M Z :=
  fun w => (inl (size_on_disk (disk w) path), w).

(** [open(path, mode)]: ['wb'] creates or truncates, the append modes create
    an absent file and keep an existing one. *)
Definition open_file (path : string) (mode : open_mode) : M unit :=
  fun w =>
    let d := match mode with
             | ModeWB => <[path := []]> (disk w)
             | ModeAB | ModeA =>
                 match disk w !! path with
                 | Some _ => disk w
                 | None => <[path := []]> (disk w)
                 end
             end in
    (inl tt, World d (trace w ++ [EvOpen path mode])).

Definition append_bytes (path : string) (data : list Byte.byte)
    (d : gmap string (list Byte.byte)) : gmap string (list Byte.byte) :=
  <[path := default [] (d !! path) ++ data]> d.

(** [f.write(chunk)] on a file opened in a binary mode *)
Definition write_bytes (path : string) (data : list Byte.byte) : M unit :=
  fun w => (inl tt, World (append_bytes path data (disk w))
                          (trace w ++ [EvWrite path data])).

(** [f.write(text)] on a file opened in text mode *)
Definition write_text (path : string) (text : string) : M unit :=
  fun w => (inl tt, World (append_bytes path (list_byte_of_string text) (disk w))
                          (trace w ++ [EvWriteText path text])).

(* ===================================================================== *)
(** * The HTTP transport *)
(* ===================================================================== *)

(** What [int(...)] makes of the text of a header. *)
Inductive header_int := IntValue (n : Z) | NotAnInt.

Record response := Response {
  status_code : Z;
  (** [response.headers.get('Content-Length')] *)
  content_length : option header_int;
  (** the chunks [response.iter_content] yields *)
  body : list (list Byte.byte);
  (** the exception [iter_content] raises after them, if the stream breaks *)
  stream_error : option string
}.

(** The result of one [requests.get]. *)
Inductive http_result :=
| GetRaises (detail : string)
| GetReturns (r : response).

Definition requests_get (reply : http_result) (url : string)
    (headers : list (string * string)) : M response :=
  emit (EvGet url headers) ;;
  match reply with
  | GetRaises detail => raise (RequestException detail)
  | GetReturns r => ret r
  end.

(* ===================================================================== *)
(** * [download_file] *)
(* ===================================================================== *)

(** A normal return of [download_file] (Python's [None]), tagged with the
    branch that returned: the specification's [Completed] (status 200 or
    206) and [AlreadyComplete] (status 416).  A raised exception is the
    specification's [Failed]. *)
Inductive finished := Completed | AlreadyComplete.

(** The loop over [response.iter_content(chunk_size=8192)]: empty chunks
    are skipped, the others are written and reported to the progress bar. *)
Fixpoint write_chunks (path : string) (chunks : list (list Byte.byte)) : M unit :=
  match chunks with
  | [] => ret tt
  | chunk :: rest =>
      (match chunk with
       | [] => ret tt
       | _ :: _ => write_bytes path chunk ;;
                   emit (EvUpdate (Z.of_nat (length chunk)))
       end) ;;
      write_chunks path rest
  end.

(** [headers = {}], with [headers['Range'] = f'bytes={current_size}-'] when
    [current_size > 0]. *)
Definition request_headers (current_size : Z) : list (string * string) :=
  if 0 <? current_size
  then [("Range", "bytes=" +:+ pretty current_size +:+ "-")]
  else [].

Definition download_file (reply : http_result) (url local_filename : string)
    : M finished :=
  try_except
    (emit (EvMakedirs (OsPath.dirname local_filename)) ;;
     current_size <- getsize_or_zero local_filename ;;
     let headers := request_headers current_size in
     response <- requests_get reply url headers ;;
     if (status_code response =? 200) || (status_code response =? 206) then
       let mode := if 0 <? current_size then ModeAB else ModeWB in
       total_size <- (match content_length response with
                      | Some (IntValue n) => ret (Some (n + current_size))
                      | Some NotAnInt => raise ValueError
                      | None => ret None
                      end) ;;
       let desc := OsPath.basename local_filename in
       emit (EvTqdm total_size current_size desc) ;;
       open_file local_filename mode ;;
       write_chunks local_filename (body response) ;;
       (match stream_error response with
        | Some detail => raise (RequestException detail)
        | None => ret tt
        end) ;;
       current_size <- getsize_or_zero local_filename ;;
       match total_size with
       | Some total_size =>
           if total_size <=? current_size
           then print (MsgCompleted local_filename) ;; ret Completed
           else raise (UnexpectedExit current_size total_size)
       | None => ret Completed
       end
     else if status_code response =? 416 then
       print (MsgAlreadyCompleted local_filename) ;; ret AlreadyComplete
     else raise (BadStatus (status_code response)))
    (fun e => print (MsgError url e) ;; raise e).

(* ===================================================================== *)
(** * The work queue: [load_tsv] and [iterate_retry] *)
(* ===================================================================== *)

Definition tab : ascii := ascii_of_nat 9.
Definition newline : string := String (ascii_of_nat 10) EmptyString.

(** One iteration of the loop of [load_tsv] over the lines of the file. *)
Definition load_tsv_line (acc : gmap string string * list message)
    (line : string) : gmap string string * list message :=
  let '(map2url, out) := acc in
  let parts := PyStr.split tab (PyStr.strip line) in
  match parts with
  | key :: value :: _ =>
      if PyStr.endswith key ".tar"
      then (<[key := value]> map2url, out)
      else (map2url, out)
  | _ => (map2url, out ++ [MsgInvalidLine (PyStr.strip line)])
  end.

(** [load_tsv]: [file] holds the lines of the file at [path], [None] when
    there is no such file; the result [None] is [sys.exit(1)]. *)
Definition load_tsv (file : option (list string))
    : option (gmap string string) * list message :=
  match file with
  | None => (None, [MsgTsvNotFound])
  | Some lines =>
      let '(map2url, out) := fold_left load_tsv_line lines (∅, []) in
      (Some map2url, out)
  end.

(** [[tar for tar in sorted(map2url.keys()) if tar.endswith('.tar')]] *)
Definition all_tars (map2url : gmap string string) : list string :=
  List.filter (fun tar => PyStr.endswith tar ".tar")
              (PyStr.sorted (elements (dom map2url))).

(** [[line.strip() for line in lines if line.strip()]] *)
Definition stripped_lines (lines : list string) : list string :=
  map PyStr.strip (List.filter (fun line => PyStr.truthy (PyStr.strip line)) lines).

(** The first half of [iterate_retry]: which targets to download.
    [retry_file] is [f.readlines()] of the retry file, [None] when
    [os.path.exists(retry_path)] is false. *)
Definition to_downloads (retry_file : option (list string))
    (map2url : gmap string string) : list string * list message :=
  match retry_file with
  | None => (all_tars map2url, [MsgNoRetryFile])
  | Some lines =>
      match stripped_lines lines with
      | [] => (all_tars map2url, [MsgRetryFileEmpty])
      | listed => (listed, [MsgFound (length listed)])
      end
  end.

(** The second half: the loop that yields [(tar, url)] when
    [map2url.get(tar)] is truthy and prints a warning otherwise. *)
Fixpoint yield_tasks (map2url : gmap string string) (tars : list string)
    : list (string * string) * list message :=
  match tars with
  | [] => ([], [])
  | tar :: rest =>
      let '(tasks, out) := yield_tasks map2url rest in
      match map2url !! tar with
      | Some url =>
          if PyStr.truthy url then ((tar, url) :: tasks, out)
          else (tasks, MsgNoURL tar :: out)
      | None => (tasks, MsgNoURL tar :: out)
      end
  end.

(** [list(iterate_retry(retry_path, map2url))] with the lines it prints. *)
Definition iterate_retry (retry_file : option (list string))
    (map2url : gmap string string) : list (string * string) * list message :=
  let '(tars, out1) := to_downloads retry_file map2url in
  let '(tasks, out2) := yield_tasks map2url tars in
  (tasks, out1 ++ out2).

(* ===================================================================== *)
(** * [download_task]: the retry loop *)
(* ===================================================================== *)

(** Conversion of a Python [int] to a [float], as in the product of a
    [float] and an [int]: round to nearest even; an out-of-range value is
    an [OverflowError] ([None]). *)
Definition float_of_int (z : Z) : option float :=
  let f := SF2Prim (binary_normalize prec emax z 0 false) in
  if PrimFloat.is_infinity f then None else Some f.

(** [backoff_factor * (2**(retries - 1))], computed when [retries >= 1]:
    the power is an [int], converted for the product. *)
Definition sleep_time (backoff_factor : float) (retries : Z) : option float :=
  match float_of_int (2 ^ (retries - 1)) with
  | Some p => Some (PrimFloat.mul backoff_factor p)
  | None => None
  end.

Definition failed_downloads : string := "failed_downloads.txt".

Section RetryLoop.

(** [replies n] answers the [requests.get] of the attempt made when the
    counter [retries] is [n]. *)
Variable replies : Z -> http_result.
Variables tar url local_path : string.
Variable max_retries : Z.
Variable backoff_factor : float.

(** The branch [retries > max_retries] of the handler. *)
Definition log_failure : M unit :=
  print (MsgExceeded tar) ;;
  open_file failed_downloads ModeA ;;
  write_text failed_downloads (tar +:+ newline).

(** The announcement and the [time.sleep] before the next attempt.
    [time.sleep] is taken to accept the duration, as it does for the
    finite, non-negative durations of the default configuration. *)
Definition back_off (retries : Z) (secs : float) (e : exn) (w : world) : world :=
  World (disk w)
        (trace w ++ [EvPrint (MsgRetry retries max_retries tar secs e);
                     EvSleep secs]).

(** [while retries <= max_retries: ...], started with the counter at
    [retries]. *)
Equations? retry_loop (retries : Z) (w : world) : (unit + exn) * world
  by wf (Z.to_nat (max_retries + 1 - retries)) lt :=
  retry_loop retries w with Z_le_gt_dec retries max_retries := {
    | right _ => (inl tt, w)
    | left _ with download_file (replies retries) url local_path w := {
        | (inl _, w1) => (inl tt, w1)
        | (inr e, w1) with (retries + 1 >? max_retries) := {
            | true => log_failure w1
            | false with sleep_time backoff_factor (retries + 1) := {
                | None => (inr OverflowError, w1)
                | Some secs =>
                    retry_loop (retries + 1) (back_off (retries + 1) secs e w1)
              } } } }.
Proof. lia. Qed.

End RetryLoop.

Definition download_task (replies : Z -> http_result) (args : string * string)
    (output_dir : string) (max_retries : Z) (backoff_factor : float) : M unit :=
  let '(tar, url) := args in
  let local_path := OsPath.join output_dir tar in
  print (MsgStarting tar url) ;;
  retry_loop replies tar url local_path max_retries backoff_factor 0.

(** The values [main] passes, which are also the defaults of the
    signature. *)
Definition default_max_retries : Z := 10.
Definition default_backoff_factor : float := 0.5%float.

(** The loop of [main] over [pool.imap_unordered(download_partial, tasks)]
    for a pool of one worker, which takes the tasks in order.  [replies
    task] answers the requests made for [task].  An exception that left a
    task would surface in this loop and end the run. *)
Fixpoint run_tasks (replies : string * string -> Z -> http_result)
    (output_dir : string) (tasks : list (string * string)) : M unit :=
  match tasks with
  | [] => ret tt
  | task :: rest =>
      download_task (replies task) task output_dir
        default_max_retries default_backoff_factor ;;
      run_tasks replies output_dir rest
  end.

(* ===================================================================== *)
(** * Reading a run *)
(* ===================================================================== *)

(** A raised exception is the specification's [Failed] outcome. *)
Definition failed {A} (res : A + exn) : Prop :=
  match res with inl _ => False | inr _ => True end.

(** The [total] the progress bar of the run was created with, that is the
    [total_size] of [download_file]: [None] if no bar was created,
    [Some None] for an unknown size. *)
Fixpoint declared_total (tr : list event) : option (option Z) :=
  match tr with
  | [] => None
  | EvTqdm total _ _ :: _ => Some total
  | _ :: rest => declared_total rest
  end.

(** The requests of a run and the files it opened. *)
Definition requests_of (tr : list event) : list (string * list (string * string)) :=
  omap (fun e => match e with EvGet u h => Some (u, h) | _ => None end) tr.
Definition opens_of (tr : list event) : list (string * open_mode) :=
  omap (fun e => match e with EvOpen p m => Some (p, m) | _ => None end) tr.

(** What the loop over the chunks does to the disk and to the trace. *)
Definition write_chunk (path : string) (d : gmap string (list Byte.byte))
    (chunk : list Byte.byte) : gmap string (list Byte.byte) :=
  match chunk with
  | [] => d
  | _ :: _ => append_bytes path chunk d
  end.
Definition chunk_events (path : string) (chunk : list Byte.byte) : list event :=
  match chunk with
  | [] => []
  | _ :: _ => [EvWrite path chunk; EvUpdate (Z.of_nat (length chunk))]
  end.

Definition ok_status (r : response) : bool :=
  (status_code r =? 200) || (status_code r =? 206).

(** The disk after [open(local_filename, mode)]. *)
Definition opened (path : string) (current_size : Z)
    (d : gmap string (list Byte.byte)) : gmap string (list Byte.byte) :=
  if 0 <? current_size
  then match d !! path with Some _ => d | None => <[path := []]> d end
  else <[path := []]> d.

(* ===================================================================== *)
(** * Sample inputs *)
(* ===================================================================== *)

Module Sample.

Definition url : string := "https://host/sa_000000.tar".
Definition path : string := "raw/sa_000000.tar".

(** Three bytes of the file are on disk. *)
Definition partial_disk : gmap string (list Byte.byte) :=
  {[ path := [x01; x02; x03] ]}.

(** The server resumes and sends the two bytes that remain. *)
Definition resumed : response :=
  Response 206 (Some (IntValue 2)) [[x04]; []; [x05]] None.

(** The server ignores the range and answers 200 with ten bytes declared,
    of which eight arrive. *)
Definition restarted : response :=
  Response 200 (Some (IntValue 10)) [[x01; x02; x03; x04]; [x05; x06; x07; x08]] None.

(** No Content-Length. *)
Definition unsized : response := Response 200 None [[x01]; [x02]] None.

(** The file is complete: the range cannot be satisfied. *)
Definition unsatisfiable : response := Response 416 None [] None.

(** The server resumes, the two bytes that remain arrive and are written,
    and then the stream raises. *)
Definition late_break : response :=
  Response 206 (Some (IntValue 2)) [[x04]; [x05]] (Some "connection reset").

(** The server ignores the range and answers 200 with the complete file,
    five bytes. *)
Definition range_ignored : response :=
  Response 200 (Some (IntValue 5)) [[x01; x02; x03; x04; x05]] None.

End Sample.

(* ===================================================================== *)
(** * Reading the work queue *)
(* ===================================================================== *)

(** The task a target identifier gives rise to: none if the manifest has no
    URL for it or has the empty URL. *)
Definition task_of (map2url : gmap string string) (tar : string)
    : option (string * string) :=
  match map2url !! tar with
  | Some url => if PyStr.truthy url then Some (tar, url) else None
  | None => None
  end.

Definition has_url (map2url : gmap string string) (tar : string) : bool :=
  match task_of map2url tar with Some _ => true | None => false end.

Module SampleQueue.

Definition A_tar : string := "A.tar".
Definition B_tar : string := "B.tar".

(** The manifest of the specification's example. *)
Definition manifest : gmap string string :=
  {[ A_tar := "urlA"; B_tar := "urlB" ]}.

(** A retry file that names [B.tar], once. *)
Definition retry_B : list string := [B_tar +:+ newline].

(** A retry file that names [B.tar], then has a blank line, then names
    [A.tar] with spaces around it. *)
Definition retry_B_then_A : list string :=
  [B_tar +:+ newline; newline; " " +:+ A_tar +:+ "  " +:+ newline].

(** A retry file that names [A.tar] on two lines. *)
Definition retry_A_twice : list string :=
  [A_tar +:+ newline; A_tar +:+ newline].

(** A manifest file whose first record has an empty second field. *)
Definition tsv_empty_url : list string :=
  [A_tar +:+ String tab (String tab "x") +:+ newline;
   B_tar +:+ String tab "urlB" +:+ newline].

End SampleQueue.

(** The retry selection: the non-blank lines of the retry file, stripped;
    empty when there is no file. *)
Definition selection (retry_file : option (list string)) : list string :=
  match retry_file with
  | Some lines => stripped_lines lines
  | None => []
  end.

(* ===================================================================== *)
(** * Reading the run of a task *)
(* ===================================================================== *)

(** The steps of the retry policy, as they show in the trace:
    - [Attempt]: a request was sent, which every call of [download_file]
      does once;
    - [AttemptFailed]: [download_file] printed its error line, which it
      does in its [except] clause, before it re-raises;
    - [Slept secs]: [time.sleep(secs)];
    - [Logged path text]: [text] was written to the text file [path]. *)
Inductive task_event :=
| Attempt
| AttemptFailed
| Slept (secs : float)
| Logged (path text : string).

Definition task_event_of (e : event) : option task_event :=
  match e with
  | EvGet _ _ => Some Attempt
  | EvPrint (MsgError _ _) => Some AttemptFailed
  | EvSleep secs => Some (Slept secs)
  | EvWriteText path text => Some (Logged path text)
  | _ => None
  end.

Definition task_view (tr : list event) : list task_event := omap task_event_of tr.

Definition is_attempt (e : task_event) : bool :=
  match e with Attempt => true | _ => false end.
Definition is_failure (e : task_event) : bool :=
  match e with AttemptFailed => true | _ => false end.

(** The number of fetch attempts of a run, and how many of them failed. *)
Definition attempts (tr : list event) : nat :=
  length (List.filter is_attempt (task_view tr)).
Definition failures (tr : list event) : nat :=
  length (List.filter is_failure (task_view tr)).

(** The lines appended to the failure log. *)
Definition failure_log_appends (tr : list event) : list string :=
  omap (fun e => match e with
                 | Logged path text =>
                     if String.eqb path failed_downloads then Some text else None
                 | _ => None
                 end) (task_view tr).

(** A failed attempt followed by the sleep before the next one. *)
Definition failed_round (secs : float) : list task_event :=
  [Attempt; AttemptFailed; Slept secs].

(** The last attempt of a run that gives up, and the entry in the log. *)
Definition last_round_gave_up (tar : string) : list task_event :=
  [Attempt; AttemptFailed; Logged failed_downloads (tar +:+ newline)].

(** The sleeps of the default configuration, in seconds. *)
Definition backoff_schedule : list float :=
  [0.5%float; 1%float; 2%float; 4%float; 8%float;
   16%float; 32%float; 64%float; 128%float; 256%float].

(** The rational number a finite [float] stands for. *)
Definition exact_value (f : float) : option Q :=
  match Prim2SF f with
  | S754_zero _ => Some (0 # 1)
  | S754_finite sign m e =>
      let magnitude :=
        if 0 <=? e then inject_Z (Z.pos m * 2 ^ e)
        else Qmake (Z.pos m) (Z.to_pos (2 ^ (- e))) in
      Some (Qred (if sign then Qopp magnitude else magnitude))
  | _ => None
  end.

(** [k] failed attempts in a row, the first made with the counter at
    [retries], each followed by its sleep; [secs_of n] is the sleep that
    follows the [n]-th failure. *)
Fixpoint failed_rounds (secs_of : Z -> float) (retries : Z) (k : nat)
    : list task_event :=
  match k with
  | O => []
  | S k' => failed_round (secs_of (retries + 1)) ++
            failed_rounds secs_of (retries + 1) k'
  end.

(** How the loop ends: the specification's [Success] and [GaveUp], and the
    case of a negative budget, in which the loop body never runs. *)
Inductive terminal := NotEntered | Success | GaveUp.

Definition terminal_view (tar : string) (t : terminal) : list task_event :=
  match t with
  | NotEntered => []
  | Success => [Attempt]
  | GaveUp => last_round_gave_up tar
  end.

(** The sleep of the default configuration after the [n]-th failure. *)
Definition scheduled_sleep (n : Z) : float :=
  nth (Z.to_nat (n - 1)) backoff_schedule 0%float.

Module SampleTask.

(** A server that is down: every request raises. *)
Definition always_down : Z -> http_result := fun _ => GetRaises "connection refused".

(** A server that is down for the first two attempts and then serves the
    file. *)
Definition recovers : Z -> http_result :=
  fun retries =>
    if retries <? 2 then GetRaises "connection refused"
    else GetReturns (Response 200 (Some (IntValue 2)) [[x01; x02]] None).

Definition task : string * string := ("sa_000000.tar", Sample.url).

End SampleTask.


(* ===================================================================== *)
(** * Further readings of a run *)
(* ===================================================================== *)

(** The amounts reported to the progress bar, and the position the bar was
    created at. *)
Definition updates_of (tr : list event) : list Z :=
  omap (fun e => match e with EvUpdate n => Some n | _ => None end) tr.
Definition bar_initial (tr : list event) : option Z :=
  head (omap (fun e => match e with EvTqdm _ initial _ => Some initial | _ => None end) tr).
Definition sum_Z (l : list Z) : Z := foldr Z.add 0 l.

(** The error lines [download_file] printed: the url and the exception. *)
Definition errors_of (tr : list event) : list (string * exn) :=
  omap (fun e => match e with EvPrint (MsgError u x) => Some (u, x) | _ => None end) tr.

(** The number of bytes of a body. *)
Definition received (r : response) : Z := Z.of_nat (length (concat (body r))).

(** A response without its empty (keep-alive) chunks. *)
Definition is_data (chunk : list Byte.byte) : bool :=
  match chunk with [] => false | _ :: _ => true end.
Definition without_keep_alives (r : response) : response :=
  Response (status_code r) (content_length r) (List.filter is_data (body r))
           (stream_error r).

Module SampleMore.



(** The stream breaks after two of the five bytes declared. *)
Definition broken : response :=
  Response 206 (Some (IntValue 5)) [[x04]; []; [x05]] (Some "connection reset").

End SampleMore.

(* ===================================================================== *)
(** * Reading the manifest file *)
(* ===================================================================== *)

(** The record the loop of [load_tsv] stores for a line, if it stores one:
    the first two of at least two tab-separated fields of the stripped
    line, when the first ends in [.tar]. *)
Definition record_of (line : string) : option (string * string) :=
  match PyStr.split tab (PyStr.strip line) with
  | key :: value :: _ =>
      if PyStr.endswith key ".tar" then Some (key, value) else None
  | _ => None
  end.

(** The lines the loop reports: fewer than two fields. *)
Definition is_invalid (line : string) : bool :=
  match PyStr.split tab (PyStr.strip line) with
  | _ :: _ :: _ => false
  | _ => true
  end.

(** The values the records hold for a key, in the order of the file. *)
Definition values_for (key : string) (records : list (string * string)) : list string :=
  omap (fun kv => if decide (fst kv = key) then Some (snd kv) else None) records.

(** The identifiers the warnings of [iterate_retry] name. *)
Definition warned (out : list message) : list string :=
  omap (fun m => match m with MsgNoURL tar => Some tar | _ => None end) out.

Module SampleManifest.

(** A manifest file: [A.tar] twice, a line for a file that is no archive,
    a line without a tab, and a blank line. *)
Definition lines : list string :=
  ["A.tar" +:+ String tab "old" +:+ newline;
   "notes.txt" +:+ String tab "urlN" +:+ newline;
   "B.tar" +:+ String tab "urlB" +:+ newline;
   "no tab here" +:+ newline;
   newline;
   "A.tar" +:+ String tab "new" +:+ newline].

Definition manifest : gmap string string := {[ "A.tar" := "new"; "B.tar" := "urlB" ]}.

(** A retry file of blank lines. *)
Definition blank_retry : list string := [newline; "   " +:+ newline].

End SampleManifest.

(* ===================================================================== *)
(** * Further readings of the run of a task *)
(* ===================================================================== *)

(** The sleeps of a run, and the time slept in all, in seconds. *)
Definition sleeps_of (tr : list event) : list float :=
  omap (fun e => match e with Slept secs => Some secs | _ => None end) (task_view tr).
Definition seconds (secs : float) : Q := default (0 # 1) (exact_value secs).
Definition slept_seconds (tr : list event) : Q :=
  foldr (fun secs total => Qred (seconds secs + total)) (0 # 1) (sleeps_of tr).

(* ===================================================================== *)
(** * The chunk loop *)
(* ===================================================================== *)

Ltac run_monad :=
  unfold download_file, try_except, bind, requests_get, getsize_or_zero,
    open_file, write_bytes, write_text, print, emit, ret, raise; simpl.

Lemma write_chunks_run path chunks w :
  write_chunks path chunks w =
  (inl tt, World (fold_left (write_chunk path) chunks (disk w))
                 (trace w ++ flat_map (chunk_events path) chunks)).
Proof.
  revert w. induction chunks as [|chunk rest IH]; intros [d tr]; simpl.
  - unfold ret. by rewrite app_nil_r.
  - unfold bind. destruct chunk as [|b chunk]; simpl.
    + unfold ret. rewrite IH. reflexivity.
    + unfold write_bytes, emit. simpl. rewrite IH. simpl.
      by rewrite <- !app_assoc.
Qed.

Lemma write_chunks_content path chunks d old :
  d !! path = Some old ->
  fold_left (write_chunk path) chunks d !! path = Some (old ++ concat chunks).
Proof.
  revert d old. induction chunks as [|chunk rest IH]; intros d old Hold; simpl.
  - by rewrite app_nil_r.
  - destruct chunk as [|b chunk]; simpl.
    + by apply IH.
    + rewrite (IH _ (old ++ b :: chunk)).
      * by rewrite <- app_assoc.
      * unfold append_bytes. rewrite Hold. simpl. apply lookup_insert_eq.
Qed.

Lemma write_chunks_frame path chunks d other :
  other <> path ->
  fold_left (write_chunk path) chunks d !! other = d !! other.
Proof.
  intros Hne. revert d. induction chunks as [|chunk rest IH]; intros d; simpl.
  - reflexivity.
  - rewrite IH. destruct chunk; simpl; [reflexivity |].
    unfold append_bytes. by rewrite lookup_insert_ne.
Qed.


Lemma size_on_disk_content d path content :
  d !! path = Some content -> size_on_disk d path = Z.of_nat (length content).
Proof. unfold size_on_disk. by intros ->. Qed.

(* ===================================================================== *)
(** * [download_file], branch by branch *)
(* ===================================================================== *)

Section Streamed.

Variables (url path : string) (w : world) (r : response).
Hypothesis Hstatus : ok_status r = true.

Let cur := size_on_disk (disk w) path.
Let mode := if 0 <? cur then ModeAB else ModeWB.
Let total :=
  match content_length r with
  | Some (IntValue n) => Some (n + cur)
  | _ => None
  end.
Let d1 := fold_left (write_chunk path) (body r) (opened path cur (disk w)).
Let t1 := trace w ++
          [EvMakedirs (OsPath.dirname path); EvGet url (request_headers cur);
           EvTqdm total cur (OsPath.basename path); EvOpen path mode] ++
          flat_map (chunk_events path) (body r).

(** The 200/206 branch, written out: what is on disk and in the trace
    when the stream has ended, and how the call ends. *)
Lemma download_file_streamed :
  content_length r <> Some NotAnInt ->
  download_file (GetReturns r) url path w =
  match stream_error r with
  | Some detail =>
      (inr (RequestException detail),
       World d1 (t1 ++ [EvPrint (MsgError url (RequestException detail))]))
  | None =>
      match total with
      | Some t =>
          if t <=? size_on_disk d1 path
          then (inl Completed, World d1 (t1 ++ [EvPrint (MsgCompleted path)]))
          else (inr (UnexpectedExit (size_on_disk d1 path) t),
                World d1 (t1 ++ [EvPrint (MsgError url
                                   (UnexpectedExit (size_on_disk d1 path) t))]))
      | None => (inl Completed, World d1 t1)
      end
  end.
Proof.
  intros Hcl. unfold ok_status in Hstatus.
  subst t1 d1 total mode cur. run_monad. rewrite Hstatus.
  destruct (content_length r) as [[n|]|]; [| congruence |]; simpl;
    rewrite write_chunks_run; simpl; unfold opened;
    destruct (0 <? size_on_disk (disk w) path); simpl;
    destruct (stream_error r); simpl; rewrite <- ?app_assoc; simpl;
    try reflexivity;
    match goal with |- context [?a <=? ?b] => destruct (a <=? b) end;
    simpl; rewrite <- ?app_assoc; reflexivity.
Qed.

End Streamed.

(** After the stream the file holds what it held before (nothing, when it
    was opened for writing) followed by the chunks. *)
Lemma streamed_content path d chunks :
  let cur := size_on_disk d path in
  fold_left (write_chunk path) chunks (opened path cur d) !! path =
  Some ((if 0 <? cur then default [] (d !! path) else []) ++ concat chunks).
Proof.
  cbv zeta. apply write_chunks_content. unfold opened.
  destruct (0 <? size_on_disk d path); [| apply lookup_insert_eq].
  destruct (d !! path) eqn:E; simpl; [done | apply lookup_insert_eq].
Qed.

Lemma streamed_frame path d chunks other :
  other <> path ->
  fold_left (write_chunk path) chunks (opened path (size_on_disk d path) d) !! other
  = d !! other.
Proof.
  intros Hne. rewrite write_chunks_frame by done. unfold opened.
  destruct (0 <? size_on_disk d path); [destruct (d !! path) |];
    rewrite ?lookup_insert_ne; done.
Qed.

Section OtherBranches.

Variables (url path : string) (w : world).

Let t0 := trace w ++ [EvMakedirs (OsPath.dirname path);
                      EvGet url (request_headers (size_on_disk (disk w) path))].

Lemma download_file_get_raises detail :
  download_file (GetRaises detail) url path w =
  (inr (RequestException detail),
   World (disk w) (t0 ++ [EvPrint (MsgError url (RequestException detail))])).
Proof. subst t0. run_monad. by rewrite <- !app_assoc. Qed.

Lemma download_file_416 r :
  status_code r = 416 ->
  download_file (GetReturns r) url path w =
  (inl AlreadyComplete, World (disk w) (t0 ++ [EvPrint (MsgAlreadyCompleted path)])).
Proof. intros H. subst t0. run_monad. rewrite H. simpl. by rewrite <- !app_assoc. Qed.

Lemma download_file_bad_status r :
  ok_status r = false -> status_code r <> 416 ->
  download_file (GetReturns r) url path w =
  (inr (BadStatus (status_code r)),
   World (disk w) (t0 ++ [EvPrint (MsgError url (BadStatus (status_code r)))])).
Proof.
  unfold ok_status. intros H1 H2. subst t0. run_monad. rewrite H1.
  destruct (Z.eqb_spec (status_code r) 416); [done |].
  simpl. by rewrite <- !app_assoc.
Qed.

Lemma download_file_bad_length r :
  ok_status r = true -> content_length r = Some NotAnInt ->
  download_file (GetReturns r) url path w =
  (inr ValueError, World (disk w) (t0 ++ [EvPrint (MsgError url ValueError)])).
Proof.
  unfold ok_status. intros H1 H2. subst t0. run_monad. rewrite H1, H2.
  simpl. by rewrite <- !app_assoc.
Qed.

End OtherBranches.

(** The five ways a call can go. *)
Lemma response_cases (r : response) :
  (ok_status r = true /\ content_length r <> Some NotAnInt) \/
  (ok_status r = true /\ content_length r = Some NotAnInt) \/
  status_code r = 416 \/
  (ok_status r = false /\ status_code r <> 416).
Proof.
  destruct (ok_status r) eqn:Hok.
  - destruct (content_length r) as [[n|]|]; [left | right; left | left];
      split; congruence.
  - destruct (Z.eq_dec (status_code r) 416); [right; right; left | right; right; right];
      auto.
Qed.

Lemma ok_status_iff r :
  ok_status r = true <-> status_code r = 200 \/ status_code r = 206.
Proof. unfold ok_status. rewrite orb_true_iff, !Z.eqb_eq. tauto. Qed.

Lemma omap_chunk_events {B} (f : event -> option B) path chunks :
  (forall p data, f (EvWrite p data) = None) ->
  (forall n, f (EvUpdate n) = None) ->
  omap f (flat_map (chunk_events path) chunks) = [].
Proof.
  intros Hw Hu. induction chunks as [|chunk rest IH]; simpl; [done |].
  rewrite omap_app, IH. destruct chunk; simpl; [done |]. by rewrite Hw, Hu.
Qed.

(* ===================================================================== *)
(** * Properties of [download_file] *)
(* ===================================================================== *)

(** The size check of lines 76-81, for every stream: with a known
    [total_size], the total handed to the progress bar, a final size below
    it is a failure and Completed is not reported below it; when the stream
    has ended these are equivalences. *)
Lemma size_check_all_streams (url path : string) (d : gmap string (list Byte.byte))
    (r : response) (n : Z) :
  status_code r = 200 \/ status_code r = 206 ->
  content_length r = Some (IntValue n) ->
  let run := download_file (GetReturns r) url path (World d []) in
  let final_size := size_on_disk (disk (snd run)) path in
  exists total_size,
    declared_total (trace (snd run)) = Some (Some total_size) /\
    (final_size < total_size -> failed (fst run)) /\
    (fst run = inl Completed -> total_size <= final_size) /\
    (stream_error r = None ->
       (failed (fst run) <-> final_size < total_size) /\
       (fst run = inl Completed <-> total_size <= final_size)).
Proof.
  intros Hst Hcl. apply ok_status_iff in Hst. cbv zeta.
  rewrite download_file_streamed by (done || congruence).
  rewrite Hcl. exists (n + size_on_disk d path).
  destruct (stream_error r) as [detail|]; simpl.
  - repeat split; try done.
  - match goal with |- context [?a <=? ?b] => destruct (Z.leb_spec a b) end;
      simpl in *; (split; [reflexivity |]); repeat split; intros;
      try done; try lia; exfalso; lia.
Qed.

(** C1 as stated fails: three bytes are on disk, a 206 response declares
    the two bytes that remain, both arrive and are written, and then the
    stream raises.  The fetch fails although the final size, 5, is not
    below [total_size], 5. *)
Lemma C1_counterexample :
  let run := download_file (GetReturns Sample.late_break) Sample.url Sample.path
               (World Sample.partial_disk []) in
  let final_size := size_on_disk (disk (snd run)) Sample.path in
  status_code Sample.late_break = 206 /\
  content_length Sample.late_break = Some (IntValue 2) /\
  declared_total (trace (snd run)) = Some (Some 5) /\
  final_size = 5 /\
  fst run = inr (RequestException "connection reset") /\
  ~ (failed (fst run) <-> final_size < 5).
Proof.
  cbv zeta.
  assert (Hrun : download_file (GetReturns Sample.late_break) Sample.url Sample.path
                   (World Sample.partial_disk []) =
                 (inr (RequestException "connection reset"),
                  snd (download_file (GetReturns Sample.late_break) Sample.url
                         Sample.path (World Sample.partial_disk []))))
    by (vm_compute; reflexivity).
  assert (Hsize : size_on_disk (disk (snd (download_file (GetReturns Sample.late_break)
                     Sample.url Sample.path (World Sample.partial_disk []))))
                    Sample.path = 5) by (vm_compute; reflexivity).
  rewrite Hsize.
  split; [reflexivity |]. split; [reflexivity |].
  split; [vm_compute; reflexivity |]. split; [reflexivity |].
  split; [by rewrite Hrun |].
  rewrite Hrun. simpl. intros [H _]. specialize (H I). lia.
Qed.

(** C1 (as amended): for a fetch that receives a 200 or 206 response with
    a known [total_size], the total the code computed and handed to the
    progress bar, and whose stream ends without a transport error: the
    fetch raises (outcome Failed) exactly when the size on disk after
    streaming is strictly less than [total_size], and returns Completed
    exactly when that size is at least [total_size]. *)
Theorem C1_size_check (url path : string) (d : gmap string (list Byte.byte))
    (r : response) (n : Z) :
  status_code r = 200 \/ status_code r = 206 ->
  content_length r = Some (IntValue n) ->
  stream_error r = None ->
  let run := download_file (GetReturns r) url path (World d []) in
  let final_size := size_on_disk (disk (snd run)) path in
  exists total_size,
    declared_total (trace (snd run)) = Some (Some total_size) /\
    (failed (fst run) <-> final_size < total_size) /\
    (fst run = inl Completed <-> total_size <= final_size).
Proof.
  intros Hst Hcl Hend. cbv zeta.
  destruct (size_check_all_streams url path d r n Hst Hcl)
    as (total_size & Htotal & _ & _ & Hiff).
  exists total_size. split; [exact Htotal |]. exact (Hiff Hend).
Qed.

Lemma C1_size_check_witness :
  (status_code Sample.resumed = 200 \/ status_code Sample.resumed = 206) /\
  content_length Sample.resumed = Some (IntValue 2) /\
  stream_error Sample.resumed = None /\
  let run := download_file (GetReturns Sample.resumed) Sample.url Sample.path
               (World Sample.partial_disk []) in
  let final_size := size_on_disk (disk (snd run)) Sample.path in
  exists total_size,
    declared_total (trace (snd run)) = Some (Some total_size) /\
    (failed (fst run) <-> final_size < total_size) /\
    (fst run = inl Completed <-> total_size <= final_size).
Proof.
  split; [right; reflexivity |]. split; [reflexivity |]. split; [reflexivity |].
  apply (C1_size_check Sample.url Sample.path Sample.partial_disk Sample.resumed 2);
    [right; reflexivity | reflexivity | reflexivity].
Defined.

(** The specification's resume example: three bytes on disk, the server
    sends the remaining two, and the file ends up with all five. *)
Example resume_completes :
  let run := download_file (GetReturns Sample.resumed) Sample.url Sample.path
               (World Sample.partial_disk []) in
  fst run = inl Completed /\
  requests_of (trace (snd run)) = [(Sample.url, [("Range", "bytes=3-")])] /\
  opens_of (trace (snd run)) = [(Sample.path, ModeAB)] /\
  disk (snd run) !! Sample.path = Some [x01; x02; x03; x04; x05].
Proof. vm_compute. done. Qed.

(** A broken stream is a failure whatever has reached the disk. *)
Lemma stream_error_fails url path w r detail :
  ok_status r = true -> content_length r <> Some NotAnInt ->
  stream_error r = Some detail ->
  fst (download_file (GetReturns r) url path w) = inr (RequestException detail).
Proof. intros Hst Hcl He. rewrite download_file_streamed by done. by rewrite He. Qed.

(** What line 54 computes: for a 200 or 206 response whose Content-Length
    is the integer [n], the total handed to the progress bar and used in
    the size check is [n + current_size], whatever the status. *)
Lemma declared_total_adds_current_size (url path : string)
    (d : gmap string (list Byte.byte)) (r : response) (n : Z) :
  status_code r = 200 \/ status_code r = 206 ->
  content_length r = Some (IntValue n) ->
  let run := download_file (GetReturns r) url path (World d []) in
  let current_size := size_on_disk d path in
  declared_total (trace (snd run)) = Some (Some (n + current_size)) /\
  (declared_total (trace (snd run)) = Some (Some n) <-> current_size = 0).
Proof.
  intros Hst Hcl. apply ok_status_iff in Hst. cbv zeta.
  rewrite download_file_streamed by (done || congruence).
  rewrite Hcl.
  destruct (stream_error r); simpl;
    [| match goal with |- context [?a <=? ?b] => destruct (a <=? b) end; simpl ];
    (split; [reflexivity |]);
    (split; [intros [=]; lia | intros ->; f_equal; f_equal; lia]).
Qed.

(** C3, the code at the failing input: three bytes of a five-byte file are
    on disk, the request carries [Range: bytes=3-], the server ignores the
    range and answers 200 with Content-Length 5 and the complete file.  The
    code takes 5 + 3 = 8 as [total_size], where the claim, like the code's
    own comment on the total file size, has 5; it opens the partial file
    for appending, so that the file ends up with eight bytes, the old three
    followed by all five, and it reports the download as completed. *)
Theorem C3_range_ignored_run :
  let run := download_file (GetReturns Sample.range_ignored) Sample.url Sample.path
               (World Sample.partial_disk []) in
  status_code Sample.range_ignored = 200 /\
  content_length Sample.range_ignored = Some (IntValue 5) /\
  size_on_disk Sample.partial_disk Sample.path = 3 /\
  requests_of (trace (snd run)) = [(Sample.url, [("Range", "bytes=3-")])] /\
  declared_total (trace (snd run)) = Some (Some 8) /\
  declared_total (trace (snd run)) <> Some (Some 5) /\
  opens_of (trace (snd run)) = [(Sample.path, ModeAB)] /\
  disk (snd run) !! Sample.path = Some [x01; x02; x03; x01; x02; x03; x04; x05] /\
  fst run = inl Completed.
Proof. vm_compute. repeat split; congruence. Qed.

(** With a short body the two totals give different outcomes: ten bytes
    declared by a 200 response, eight received after the three on disk;
    the eleven bytes on disk are short of 13 and the fetch fails, where a
    total of 10 would have been reached. *)
Example restarted_short_of_total :
  let run := download_file (GetReturns Sample.restarted) Sample.url Sample.path
               (World Sample.partial_disk []) in
  declared_total (trace (snd run)) = Some (Some 13) /\
  fst run = inr (UnexpectedExit 11 13).
Proof. vm_compute. split; reflexivity. Qed.

(** C6: a fetch whose 200 or 206 response carries no Content-Length and
    whose stream ends without a transport error is Completed, whatever the
    number of bytes received. *)
Theorem C6_unknown_length_completes (url path : string) (w : world) (r : response) :
  status_code r = 200 \/ status_code r = 206 ->
  content_length r = None ->
  stream_error r = None ->
  fst (download_file (GetReturns r) url path w) = inl Completed.
Proof.
  intros Hst Hcl Hend. apply ok_status_iff in Hst.
  rewrite download_file_streamed by (done || congruence).
  by rewrite Hend, Hcl.
Qed.

Lemma C6_unknown_length_completes_witness :
  (status_code Sample.unsized = 200 \/ status_code Sample.unsized = 206) /\
  content_length Sample.unsized = None /\
  stream_error Sample.unsized = None /\
  fst (download_file (GetReturns Sample.unsized) Sample.url Sample.path
         (World Sample.partial_disk [])) = inl Completed.
Proof.
  split; [left; reflexivity |]. split; [reflexivity |]. split; [reflexivity |].
  apply (C6_unknown_length_completes Sample.url Sample.path
           (World Sample.partial_disk []) Sample.unsized);
    [left; reflexivity | reflexivity | reflexivity].
Defined.

(** C8: a fetch that receives a 416 response is AlreadyComplete and leaves
    the disk as it was: no file is opened or written, and the local file
    has the contents and the length it had. *)
Theorem C8_already_complete_keeps_file (url path : string)
    (d : gmap string (list Byte.byte)) (r : response) :
  status_code r = 416 ->
  let run := download_file (GetReturns r) url path (World d []) in
  fst run = inl AlreadyComplete /\
  disk (snd run) = d /\
  disk (snd run) !! path = d !! path /\
  size_on_disk (disk (snd run)) path = size_on_disk d path /\
  opens_of (trace (snd run)) = [].
Proof.
  intros Hst. cbv zeta. rewrite download_file_416 by done. simpl. done.
Qed.

Lemma C8_already_complete_keeps_file_witness :
  status_code Sample.unsatisfiable = 416 /\
  let run := download_file (GetReturns Sample.unsatisfiable) Sample.url Sample.path
               (World Sample.partial_disk []) in
  fst run = inl AlreadyComplete /\
  disk (snd run) = Sample.partial_disk /\
  disk (snd run) !! Sample.path = Sample.partial_disk !! Sample.path /\
  size_on_disk (disk (snd run)) Sample.path = size_on_disk Sample.partial_disk Sample.path /\
  opens_of (trace (snd run)) = [].
Proof.
  split; [reflexivity |].
  apply (C8_already_complete_keeps_file Sample.url Sample.path Sample.partial_disk
           Sample.unsatisfiable); reflexivity.
Defined.

Lemma requests_of_chunks path chunks :
  requests_of (flat_map (chunk_events path) chunks) = [].
Proof. by apply omap_chunk_events. Qed.

Lemma opens_of_chunks path chunks :
  opens_of (flat_map (chunk_events path) chunks) = [].
Proof. by apply omap_chunk_events. Qed.

(** What a call sends and opens, whatever the reply: one request, with the
    headers computed from the size on disk, and at most one [open], of the
    local file, in the mode computed from that size. *)
Lemma download_file_requests_opens reply url path d :
  let tr := trace (snd (download_file reply url path (World d []))) in
  let cur := size_on_disk d path in
  requests_of tr = [(url, request_headers cur)] /\
  (opens_of tr = [] \/
   opens_of tr = [(path, if 0 <? cur then ModeAB else ModeWB)]).
Proof.
  cbv zeta. destruct reply as [detail | r].
  - rewrite download_file_get_raises. simpl. auto.
  - destruct (response_cases r) as [[Hok Hcl] | [[Hok Hcl] | [H416 | [Hok H416]]]].
    + rewrite download_file_streamed by done.
      destruct (stream_error r);
        [| destruct (content_length r) as [[n|]|]; [| done |];
           [match goal with |- context [?a <=? ?b] => destruct (a <=? b) end |] ];
        simpl; unfold requests_of, opens_of; simpl;
        rewrite ?omap_app; simpl;
        rewrite !omap_chunk_events by done; auto.
    + rewrite download_file_bad_length by done. simpl. auto.
    + rewrite download_file_416 by done. simpl. auto.
    + rewrite download_file_bad_status by done. simpl. auto.
Qed.

(** What was in the local file before a call is still there after it, at
    the start of the file. *)
Lemma download_file_keeps_prefix reply url path w old :
  disk w !! path = Some old ->
  exists added,
    disk (snd (download_file reply url path w)) !! path = Some (old ++ added).
Proof.
  intros Hold.
  assert (Hsame : disk w !! path = Some (old ++ [])) by by rewrite app_nil_r.
  destruct reply as [detail | r].
  - rewrite download_file_get_raises. by exists [].
  - destruct (response_cases r) as [[Hok Hcl] | [[Hok Hcl] | [H416 | [Hok H416]]]].
    + exists (concat (body r)).
      pose proof (streamed_content path (disk w) (body r)) as Hc.
      cbv zeta in Hc. rewrite Hold in Hc. simpl in Hc.
      assert (Hpre : (if 0 <? size_on_disk (disk w) path then old else []) = old).
      { destruct (Z.ltb_spec 0 (size_on_disk (disk w) path)) as [|Hle]; [done |].
        rewrite (size_on_disk_content _ _ _ Hold) in Hle.
        destruct old; [done | simpl in Hle; lia]. }
      rewrite Hpre in Hc.
      rewrite download_file_streamed by done.
      destruct (stream_error r);
        [| destruct (content_length r) as [[n|]|]; [| done |];
           [match goal with |- context [?a <=? ?b] => destruct (a <=? b) end |] ];
        exact Hc.
    + rewrite download_file_bad_length by done. by exists [].
    + rewrite download_file_416 by done. by exists [].
    + rewrite download_file_bad_status by done. by exists [].
Qed.




(* ===================================================================== *)
(** * The order on strings *)
(* ===================================================================== *)

Lemma ascii_compare_refl c : Ascii.compare c c = Eq.
Proof. unfold Ascii.compare. apply N.compare_refl. Qed.

Lemma string_compare_refl s : String.compare s s = Eq.
Proof. induction s as [|c s IH]; simpl; [done |]. by rewrite ascii_compare_refl. Qed.

Lemma string_compare_trans_lt s1 :
  forall s2 s3, String.compare s1 s2 = Lt -> String.compare s2 s3 = Lt ->
                String.compare s1 s3 = Lt.
Proof.
  induction s1 as [|c1 s1 IH]; intros [|c2 s2] [|c3 s3]; simpl; try done.
  unfold Ascii.compare.
  destruct (N.compare_spec (N_of_ascii c1) (N_of_ascii c2)) as [E12|L12|G12];
    destruct (N.compare_spec (N_of_ascii c2) (N_of_ascii c3)) as [E23|L23|G23];
    try done; intros H12 H23.
  - rewrite E12, E23, N.compare_refl. by apply (IH s2).
  - rewrite E12. by apply N.compare_lt_iff in L23 as ->.
  - rewrite <- E23. by apply N.compare_lt_iff in L12 as ->.
  - assert (N_of_ascii c1 < N_of_ascii c3)%N as L by lia.
    by apply N.compare_lt_iff in L as ->.
Qed.

#[global] Instance str_le_total : Total PyStr.str_le.
Proof. intros a b. apply String.leb_total. Qed.

#[global] Instance str_le_trans : Transitive PyStr.str_le.
Proof.
  intros a b c. unfold PyStr.str_le, String.leb.
  destruct (String.compare a b) eqn:Hab; [| | done];
    destruct (String.compare b c) eqn:Hbc; try done; intros _ _.
  - apply String.compare_eq_iff in Hab, Hbc. subst.
    by rewrite string_compare_refl.
  - apply String.compare_eq_iff in Hab. subst. by rewrite Hbc.
  - apply String.compare_eq_iff in Hbc. subst. by rewrite Hab.
  - by rewrite (string_compare_trans_lt a b c).
Qed.

Lemma sorted_strongly (l : list string) :
  StronglySorted PyStr.str_le (PyStr.sorted l).
Proof. apply StronglySorted_merge_sort; apply _. Qed.

Lemma sorted_permutation (l : list string) : PyStr.sorted l ≡ₚ l.
Proof. apply merge_sort_Permutation. Qed.

Lemma StronglySorted_list_filter {A} (R : relation A) (f : A -> bool) l :
  StronglySorted R l -> StronglySorted R (List.filter f l).
Proof.
  induction 1 as [|x l Hl IH Hx]; simpl; [constructor |].
  destruct (f x); [| done]. constructor; [done |].
  rewrite List.Forall_forall in *. intros y Hy.
  apply List.filter_In in Hy as [Hy _]. auto.
Qed.

(* ===================================================================== *)
(** * Properties of the work queue *)
(* ===================================================================== *)

Lemma yield_tasks_tasks map2url tars :
  fst (yield_tasks map2url tars) = omap (task_of map2url) tars.
Proof.
  induction tars as [|tar rest IH]; simpl; [done |].
  destruct (yield_tasks map2url rest) as [tasks out]. simpl in IH. subst tasks.
  change (omap (task_of map2url) (tar :: rest)) with
    (match task_of map2url tar with
     | Some task => task :: omap (task_of map2url) rest
     | None => omap (task_of map2url) rest
     end).
  assert (Ht : task_of map2url tar =
               match map2url !! tar with
               | Some url => if PyStr.truthy url then Some (tar, url) else None
               | None => None
               end) by reflexivity.
  rewrite Ht.
  destruct (map2url !! tar) as [u|]; [destruct (PyStr.truthy u) |]; done.
Qed.

Lemma yield_tasks_warnings map2url tars :
  snd (yield_tasks map2url tars) =
  map MsgNoURL (List.filter (fun tar => negb (has_url map2url tar)) tars).
Proof.
  induction tars as [|tar rest IH]; simpl; [done |].
  destruct (yield_tasks map2url rest) as [tasks out]. simpl in IH. subst out.
  assert (Ht : has_url map2url tar =
               match map2url !! tar with
               | Some url => PyStr.truthy url
               | None => false
               end).
  { unfold has_url, task_of.
    destruct (map2url !! tar) as [u|]; [destruct (PyStr.truthy u) |]; done. }
  rewrite Ht.
  destruct (map2url !! tar) as [u|]; [destruct (PyStr.truthy u) |]; done.
Qed.

Lemma tasks_targets map2url tars :
  map fst (omap (task_of map2url) tars) = List.filter (has_url map2url) tars.
Proof.
  induction tars as [|tar rest IH]; [done |].
  change (omap (task_of map2url) (tar :: rest)) with
    (match task_of map2url tar with
     | Some task => task :: omap (task_of map2url) rest
     | None => omap (task_of map2url) rest
     end).
  cbn [List.filter].
  assert (Hh : has_url map2url tar =
               match task_of map2url tar with Some _ => true | None => false end)
    by reflexivity.
  rewrite Hh. destruct (task_of map2url tar) as [[t u]|] eqn:E.
  - cbn [map fst]. rewrite IH. f_equal. unfold task_of in E.
    destruct (map2url !! tar) as [u'|]; [destruct (PyStr.truthy u') |];
      congruence.
  - exact IH.
Qed.

Lemma task_of_Some map2url tar t u :
  task_of map2url tar = Some (t, u) <->
  t = tar /\ map2url !! tar = Some u /\ u <> "".
Proof.
  unfold task_of. destruct (map2url !! tar) as [u'|].
  - destruct u' as [|c u']; simpl; split.
    + done.
    + intros (_ & [= <-] & H). done.
    + intros [= <- <-]. done.
    + intros (-> & [= <-] & _). done.
  - split; [done | intros (_ & [=] & _)].
Qed.

Lemma iterate_retry_unfold retry_file map2url :
  iterate_retry retry_file map2url =
  let sel := to_downloads retry_file map2url in
  (omap (task_of map2url) (fst sel),
   snd sel ++ map MsgNoURL
     (List.filter (fun tar => negb (has_url map2url tar)) (fst sel))).
Proof.
  unfold iterate_retry. cbv zeta.
  destruct (to_downloads retry_file map2url) as [tars out1]. simpl.
  rewrite <- yield_tasks_tasks, <- yield_tasks_warnings.
  by destruct (yield_tasks map2url tars).
Qed.

Lemma NoDup_list_filter {A} (f : A -> bool) (l : list A) :
  NoDup l -> NoDup (List.filter f l).
Proof. rewrite !NoDup_ListNoDup. apply List.NoDup_filter. Qed.

Lemma all_tars_NoDup map2url : NoDup (all_tars map2url).
Proof.
  unfold all_tars. apply NoDup_list_filter.
  rewrite sorted_permutation. apply NoDup_elements.
Qed.

Lemma all_tars_sorted map2url : StronglySorted PyStr.str_le (all_tars map2url).
Proof. apply StronglySorted_list_filter, sorted_strongly. Qed.

Lemma all_tars_In map2url tar :
  In tar (all_tars map2url) <->
  is_Some (map2url !! tar) /\ PyStr.endswith tar ".tar" = true.
Proof.
  unfold all_tars. rewrite List.filter_In.
  rewrite <- list_elem_of_In, sorted_permutation, elem_of_elements, elem_of_dom.
  done.
Qed.

(** Which mode [iterate_retry] runs in. *)
Lemma to_downloads_cases retry_file map2url :
  (fst (to_downloads retry_file map2url) = all_tars map2url /\
   (retry_file = None \/
    exists lines, retry_file = Some lines /\ stripped_lines lines = [])) \/
  (exists lines, retry_file = Some lines /\ stripped_lines lines <> [] /\
     to_downloads retry_file map2url =
     (stripped_lines lines, [MsgFound (length (stripped_lines lines))])).
Proof.
  destruct retry_file as [lines|]; simpl; [| by left; auto].
  destruct (stripped_lines lines) as [|l ls] eqn:E.
  - left. split; [done |]. right. by exists lines.
  - right. exists lines. by rewrite E.
Qed.

(** C4 as stated fails: a retry file that names [A.tar] on two lines gives
    two entries for [A.tar]. *)
Lemma C4_counterexample :
  let tasks := fst (iterate_retry (Some SampleQueue.retry_A_twice)
                                  SampleQueue.manifest) in
  tasks = [("A.tar", "urlA"); ("A.tar", "urlA")] /\
  ~ NoDup (map fst tasks).
Proof.
  cbv zeta.
  assert (fst (iterate_retry (Some SampleQueue.retry_A_twice) SampleQueue.manifest)
          = [("A.tar", "urlA"); ("A.tar", "urlA")]) as -> by (vm_compute; reflexivity).
  split; [reflexivity |]. simpl. intros H.
  apply NoDup_cons in H as [H _]. apply H. by left.
Qed.

(** C4 (as amended): when the retry file is absent, or its non-blank
    lines are pairwise distinct once stripped of the whitespace around
    them, the resolved work sequence contains at most one entry per target
    identifier. *)
Theorem C4_one_entry_per_target (retry_file : option (list string))
    (map2url : gmap string string) :
  (forall lines, retry_file = Some lines -> NoDup (stripped_lines lines)) ->
  NoDup (map fst (fst (iterate_retry retry_file map2url))).
Proof.
  intros Hdistinct. rewrite iterate_retry_unfold. cbv zeta. simpl.
  rewrite tasks_targets. apply NoDup_list_filter.
  destruct (to_downloads_cases retry_file map2url)
    as [[-> _] | (lines & -> & _ & ->)].
  - apply all_tars_NoDup.
  - simpl. by apply Hdistinct.
Qed.

Lemma C4_one_entry_per_target_witness :
  (forall lines, Some SampleQueue.retry_B_then_A = Some lines ->
                 NoDup (stripped_lines lines)) /\
  NoDup (map fst (fst (iterate_retry (Some SampleQueue.retry_B_then_A)
                                     SampleQueue.manifest))).
Proof.
  assert (H : forall lines, Some SampleQueue.retry_B_then_A = Some lines ->
                            NoDup (stripped_lines lines)).
  { intros lines [= <-].
    assert (stripped_lines SampleQueue.retry_B_then_A = ["B.tar"; "A.tar"]) as ->
      by (vm_compute; reflexivity).
    apply NoDup_cons. split; [| apply NoDup_singleton].
    intros Hin. apply list_elem_of_In in Hin. destruct Hin as [[=] | []]. }
  split; [exact H |].
  exact (C4_one_entry_per_target (Some SampleQueue.retry_B_then_A)
           SampleQueue.manifest H).
Defined.

(** The tasks of that retry file: the two identifiers, in its order. *)
Example retry_B_then_A_tasks :
  fst (iterate_retry (Some SampleQueue.retry_B_then_A) SampleQueue.manifest)
  = [("B.tar", "urlB"); ("A.tar", "urlA")].
Proof. vm_compute. reflexivity. Qed.

(** In retry-file mode an identifier yields as many entries as there are
    lines that name it, if the manifest has a URL for it. *)
Lemma retry_mode_targets lines map2url :
  stripped_lines lines <> [] ->
  map fst (fst (iterate_retry (Some lines) map2url)) =
  List.filter (has_url map2url) (stripped_lines lines).
Proof.
  intros Hne. rewrite iterate_retry_unfold. cbv zeta. simpl.
  rewrite tasks_targets. destruct (stripped_lines lines); done.
Qed.

Lemma In_tasks map2url tars t u :
  In (t, u) (omap (task_of map2url) tars) <->
  In t tars /\ map2url !! t = Some u /\ u <> "".
Proof.
  rewrite <- !list_elem_of_In, list_elem_of_omap. split.
  - intros (tar & Hin & Htask). apply task_of_Some in Htask as (-> & ? & ?). done.
  - intros (Hin & Hm & Hu). exists t. split; [done |]. by apply task_of_Some.
Qed.

Lemma has_url_true map2url tar :
  has_url map2url tar = true <-> exists u, map2url !! tar = Some u /\ u <> "".
Proof.
  unfold has_url. destruct (task_of map2url tar) as [[t u]|] eqn:E.
  - apply task_of_Some in E as (-> & ? & ?). split; [eauto | done].
  - split; [done |]. intros (u & Hm & Hu).
    assert (task_of map2url tar = Some (tar, u)) by by apply task_of_Some.
    congruence.
Qed.

Lemma to_downloads_selection retry_file map2url :
  to_downloads retry_file map2url =
  match selection retry_file with
  | [] => (all_tars map2url,
           [match retry_file with None => MsgNoRetryFile | Some _ => MsgRetryFileEmpty end])
  | listed => (listed, [MsgFound (length listed)])
  end.
Proof. destruct retry_file as [lines|]; simpl; [| done]. by destruct (stripped_lines lines). Qed.

(** The manifest [load_tsv] builds has the empty URL for a record whose
    second field is empty. *)
Lemma load_tsv_empty_url :
  fst (load_tsv (Some SampleQueue.tsv_empty_url)) =
  Some {[ "A.tar" := ""; "B.tar" := "urlB" ]}.
Proof. vm_compute. reflexivity. Qed.

(** C5 as stated fails on a manifest that has the empty URL for [A.tar]:
    without a retry file the work set lacks the manifest target [A.tar],
    and with a retry file that lists [A.tar], which the manifest has, the
    work set is empty. *)
Lemma C5_counterexample :
  let manifest : gmap string string := {[ "A.tar" := ""; "B.tar" := "urlB" ]} in
  fst (load_tsv (Some SampleQueue.tsv_empty_url)) = Some manifest /\
  manifest !! "A.tar" = Some "" /\
  fst (iterate_retry None manifest) = [("B.tar", "urlB")] /\
  fst (iterate_retry None manifest) <> [("A.tar", ""); ("B.tar", "urlB")] /\
  iterate_retry (Some SampleQueue.retry_A_twice) manifest =
    ([], [MsgFound 2; MsgNoURL "A.tar"; MsgNoURL "A.tar"]).
Proof.
  cbv zeta. split; [apply load_tsv_empty_url |].
  split; [by vm_compute |].
  assert (fst (iterate_retry None ({[ "A.tar" := ""; "B.tar" := "urlB" ]}
                                   : gmap string string))
          = [("B.tar", "urlB")]) as -> by (vm_compute; reflexivity).
  split; [reflexivity |]. split; [discriminate |]. vm_compute. reflexivity.
Qed.

(** C5 (as amended): if the retry file is absent or has only blank lines,
    the work set is the manifest targets that end in [.tar] and have a
    non-empty URL, in sorted order, each once, each with its manifest URL;
    otherwise it is the listed identifiers that have a non-empty manifest
    URL, in the order given, each with its manifest URL, and each listed
    identifier that is absent from the manifest or has the empty URL there
    gets a warning and no task. *)
Theorem C5_resolved_work_set (retry_file : option (list string))
    (map2url : gmap string string) :
  let tasks := fst (iterate_retry retry_file map2url) in
  let warnings := snd (iterate_retry retry_file map2url) in
  let listed := selection retry_file in
  match listed with
  | [] =>
      StronglySorted PyStr.str_le (map fst tasks) /\
      NoDup (map fst tasks) /\
      (forall t u, In (t, u) tasks <->
         map2url !! t = Some u /\ PyStr.endswith t ".tar" = true /\ u <> "")
  | _ :: _ =>
      map fst tasks = List.filter (has_url map2url) listed /\
      (forall t u, In (t, u) tasks <->
         In t listed /\ map2url !! t = Some u /\ u <> "") /\
      warnings = MsgFound (length listed) ::
                 map MsgNoURL (List.filter (fun t => negb (has_url map2url t)) listed)
  end.
Proof.
  cbv zeta. rewrite iterate_retry_unfold, to_downloads_selection. cbv zeta.
  destruct (selection retry_file) as [|l ls] eqn:Hsel; cbn [fst snd].
  - rewrite tasks_targets. split; [| split].
    + apply StronglySorted_list_filter, all_tars_sorted.
    + apply NoDup_list_filter, all_tars_NoDup.
    + intros t u. rewrite In_tasks, all_tars_In. split.
      * intros ((_ & Hsuf) & Hm & Hu). done.
      * intros (Hm & Hsuf & Hu). eauto.
  - rewrite tasks_targets. split; [done |]. split; [| done].
    intros t u. apply In_tasks.
Qed.

(** The specification's example of selection precedence. *)
Example selection_precedence :
  fst (iterate_retry (Some SampleQueue.retry_B) SampleQueue.manifest)
    = [("B.tar", "urlB")] /\
  fst (iterate_retry None SampleQueue.manifest)
    = [("A.tar", "urlA"); ("B.tar", "urlB")].
Proof. split; vm_compute; reflexivity. Qed.

(** The manifests [load_tsv] builds have keys that end in [.tar] only. *)
Lemma load_tsv_line_keys acc line :
  (forall k, is_Some (fst acc !! k) -> PyStr.endswith k ".tar" = true) ->
  forall k, is_Some (fst (load_tsv_line acc line) !! k) ->
            PyStr.endswith k ".tar" = true.
Proof.
  destruct acc as [m out]. unfold load_tsv_line. simpl. intros Hm k.
  destruct (PyStr.split tab (PyStr.strip line)) as [|key [|value rest]];
    simpl; auto.
  destruct (PyStr.endswith key ".tar") eqn:E; simpl; auto.
  destruct (decide (key = k)) as [<- | Hne]; [done |].
  rewrite lookup_insert_ne by done. auto.
Qed.

Lemma load_tsv_keys lines map2url :
  fst (load_tsv (Some lines)) = Some map2url ->
  forall k, is_Some (map2url !! k) -> PyStr.endswith k ".tar" = true.
Proof.
  unfold load_tsv.
  assert (Hfold : forall acc,
            (forall k, is_Some (fst acc !! k) -> PyStr.endswith k ".tar" = true) ->
            forall k, is_Some (fst (fold_left load_tsv_line lines acc) !! k) ->
                      PyStr.endswith k ".tar" = true).
  { induction lines as [|line rest IH]; intros acc Hacc; simpl; [done |].
    apply IH. by apply load_tsv_line_keys. }
  specialize (Hfold (∅, [])).
  destruct (fold_left load_tsv_line lines (∅, [])) as [m out]. simpl in *.
  intros [= <-]. apply Hfold. intros k [? Hk]. by rewrite lookup_empty in Hk.
Qed.

(* ===================================================================== *)
(** * One attempt, as the retry policy sees it *)
(* ===================================================================== *)

Lemma task_view_app tr1 tr2 : task_view (tr1 ++ tr2) = task_view tr1 ++ task_view tr2.
Proof. apply omap_app. Qed.

Lemma task_view_cons e tr :
  task_view (e :: tr) =
  match task_event_of e with Some t => [t] | None => [] end ++ task_view tr.
Proof. unfold task_view. simpl. by destruct (task_event_of e). Qed.

Lemma task_view_chunks path chunks :
  task_view (flat_map (chunk_events path) chunks) = [].
Proof. by apply omap_chunk_events. Qed.

(** A call of [download_file] adds to the trace; the addition shows one
    attempt, failed exactly when the call raises. *)
Lemma download_file_view reply url path w :
  exists evs,
    trace (snd (download_file reply url path w)) = trace w ++ evs /\
    task_view evs =
    match fst (download_file reply url path w) with
    | inl _ => [Attempt]
    | inr _ => [Attempt; AttemptFailed]
    end.
Proof.
  destruct reply as [detail | r].
  - rewrite download_file_get_raises. simpl. rewrite <- app_assoc.
    eexists. split; reflexivity.
  - destruct (response_cases r) as [[Hok Hcl] | [[Hok Hcl] | [H416 | [Hok H416]]]].
    + rewrite download_file_streamed by done.
      destruct (stream_error r);
        [| destruct (content_length r) as [[n|]|]; [| done |];
           [match goal with |- context [?a <=? ?b] => destruct (a <=? b) end |] ];
        simpl; rewrite <- ?app_assoc; (eexists; split; [reflexivity |]);
        repeat (rewrite task_view_cons || rewrite task_view_app
                || rewrite task_view_chunks);
        reflexivity.
    + rewrite download_file_bad_length by done. simpl. rewrite <- app_assoc.
      eexists. split; reflexivity.
    + rewrite download_file_416 by done. simpl. rewrite <- app_assoc.
      eexists. split; reflexivity.
    + rewrite download_file_bad_status by done. simpl. rewrite <- app_assoc.
      eexists. split; reflexivity.
Qed.

(** A call of [download_file] touches no file but its own. *)
Lemma download_file_frame reply url path w other :
  other <> path ->
  disk (snd (download_file reply url path w)) !! other = disk w !! other.
Proof.
  intros Hne. destruct reply as [detail | r].
  - by rewrite download_file_get_raises.
  - destruct (response_cases r) as [[Hok Hcl] | [[Hok Hcl] | [H416 | [Hok H416]]]].
    + rewrite download_file_streamed by done.
      destruct (stream_error r);
        [| destruct (content_length r) as [[n|]|]; [| done |];
           [match goal with |- context [?a <=? ?b] => destruct (a <=? b) end |] ];
        simpl; by apply streamed_frame.
    + by rewrite download_file_bad_length.
    + by rewrite download_file_416.
    + by rewrite download_file_bad_status.
Qed.

(* ===================================================================== *)
(** * The retry loop *)
(* ===================================================================== *)

Lemma log_failure_run tar w :
  fst (log_failure tar w) = inl tt /\
  trace (snd (log_failure tar w)) =
    trace w ++ [EvPrint (MsgExceeded tar); EvOpen failed_downloads ModeA;
                EvWriteText failed_downloads (tar +:+ newline)] /\
  disk (snd (log_failure tar w)) !! failed_downloads =
    Some (default [] (disk w !! failed_downloads) ++
          list_byte_of_string (tar +:+ newline)) /\
  (forall other, other <> failed_downloads ->
     disk (snd (log_failure tar w)) !! other = disk w !! other).
Proof.
  unfold log_failure. run_monad. rewrite <- !app_assoc. simpl.
  split; [done |]. split; [done |]. unfold append_bytes.
  destruct (disk w !! failed_downloads) eqn:E; simpl.
  - rewrite E. simpl. split; [apply lookup_insert_eq |].
    intros other Hne. by rewrite lookup_insert_ne.
  - rewrite !lookup_insert_eq. simpl. split; [done |].
    intros other Hne. by rewrite !lookup_insert_ne.
Qed.

Section RetryPolicy.

Variable replies : Z -> http_result.
Variables tar url local_path : string.
Variable max_retries : Z.
Variable backoff_factor : float.

(** The sleeps can be computed: no [OverflowError] within the budget. *)
Variable secs_of : Z -> float.
Hypothesis Hsecs :
  forall n, 0 < n <= max_retries -> sleep_time backoff_factor n = Some (secs_of n).

Local Abbreviation loop :=
  (retry_loop replies tar url local_path max_retries backoff_factor).

(** The loop returns normally.  Its run is a number of failed rounds
    followed by nothing (the budget was negative), by a successful attempt,
    or by the last failed attempt and the entry in the failure log, which
    is then the one change to the log file. *)
Lemma retry_loop_run retries w :
  0 <= retries ->
  exists k ending evs,
    fst (loop retries w) = inl tt /\
    trace (snd (loop retries w)) = trace w ++ evs /\
    task_view evs = failed_rounds secs_of retries k ++ terminal_view tar ending /\
    match ending with
    | NotEntered => max_retries < retries /\ k = O
    | Success => retries + Z.of_nat k <= max_retries
    | GaveUp => retries + Z.of_nat k = max_retries
    end /\
    (local_path <> failed_downloads ->
     disk (snd (loop retries w)) !! failed_downloads =
     match ending with
     | GaveUp => Some (default [] (disk w !! failed_downloads) ++
                       list_byte_of_string (tar +:+ newline))
     | _ => disk w !! failed_downloads
     end).
Proof.
  funelim (loop retries w); intros Hnn.
  - exists O, NotEntered, []. simpl. rewrite app_nil_r. repeat split; (done || lia).
  - destruct (download_file_view (replies retries) url local_path w)
      as (evs & Htr & Hview).
    pose proof (download_file_frame (replies retries) url local_path w
                  failed_downloads) as Hframe.
    match goal with H : download_file _ _ _ _ = _ |- _ =>
      rewrite H in Htr, Hview, Hframe end.
    exists O, Success, evs. simpl in *. repeat split; try done; [lia | auto].
  - destruct (download_file_view (replies retries) url local_path w)
      as (evs & Htr & Hview).
    pose proof (download_file_frame (replies retries) url local_path w
                  failed_downloads) as Hframe.
    match goal with H : download_file _ _ _ _ = _ |- _ =>
      rewrite H in Htr, Hview, Hframe end.
    simpl in Htr, Hview, Hframe.
    destruct (log_failure_run tar w1) as (Hres & Htr' & Hlog & _).
    exists O, GaveUp,
      (evs ++ [EvPrint (MsgExceeded tar); EvOpen failed_downloads ModeA;
               EvWriteText failed_downloads (tar +:+ newline)]).
    split; [done |]. split; [by rewrite Htr', Htr, <- app_assoc |].
    split; [by rewrite task_view_app, Hview |].
    split.
    + match goal with H : (_ >? _) = true |- _ => apply Z.gtb_lt in H end. lia.
    + intros Hne. rewrite Hlog, Hframe by auto. done.
  - match goal with H : (_ >? _) = false |- _ =>
      rewrite Z.gtb_ltb in H; apply Z.ltb_ge in H; rename H into Hle end.
    match goal with H : sleep_time _ _ = Some _ |- _ =>
      rewrite Hsecs in H by lia; injection H as <- end.
    destruct (download_file_view (replies retries) url local_path w)
      as (evs & Htr & Hview).
    pose proof (download_file_frame (replies retries) url local_path w
                  failed_downloads) as Hframe.
    match goal with H : download_file _ _ _ _ = _ |- _ =>
      rewrite H in Htr, Hview, Hframe end.
    simpl in Htr, Hview, Hframe.
    match goal with IH : 0 <= _ -> _ |- _ =>
      destruct IH as (k & ending & evs' & Hres & Htr' & Hview' & Hend & Hdisk);
        [lia |] end.
    exists (S k), ending,
      (evs ++ [EvPrint (MsgRetry (retries + 1) max_retries tar
                          (secs_of (retries + 1)) e);
               EvSleep (secs_of (retries + 1))] ++ evs').
    split; [done |].
    split; [rewrite Htr'; unfold back_off; simpl; by rewrite Htr, <- !app_assoc |].
    split; [rewrite !task_view_app, Hview, Hview'; reflexivity |].
    split.
    + destruct ending; lia.
    + intros Hne. rewrite Hdisk by done. unfold back_off. simpl.
      rewrite Hframe by auto. done.
  - match goal with H : (_ >? _) = false |- _ =>
      rewrite Z.gtb_ltb in H; apply Z.ltb_ge in H end.
    match goal with H : sleep_time _ _ = None |- _ =>
      rewrite Hsecs in H by lia; discriminate H end.
Qed.

End RetryPolicy.

(* ===================================================================== *)
(** * The default configuration: [max_retries = 10], [backoff_factor = 0.5] *)
(* ===================================================================== *)

Lemma default_sleep_time n :
  0 < n <= default_max_retries ->
  sleep_time default_backoff_factor n = Some (scheduled_sleep n).
Proof.
  unfold default_max_retries. intros Hn.
  assert (n = 1 \/ n = 2 \/ n = 3 \/ n = 4 \/ n = 5 \/
          n = 6 \/ n = 7 \/ n = 8 \/ n = 9 \/ n = 10) as Hcases by lia.
  repeat (destruct Hcases as [-> | Hcases]; [vm_compute; reflexivity |]).
  subst n. vm_compute. reflexivity.
Qed.

(** The floats of the schedule are the numbers [1/2 * 2^(n-1)], exactly. *)
Lemma scheduled_sleep_exact n :
  0 < n <= default_max_retries ->
  exact_value (scheduled_sleep n) = Some (Qred ((1 # 2) * inject_Z (2 ^ (n - 1)))).
Proof.
  unfold default_max_retries. intros Hn.
  assert (n = 1 \/ n = 2 \/ n = 3 \/ n = 4 \/ n = 5 \/
          n = 6 \/ n = 7 \/ n = 8 \/ n = 9 \/ n = 10) as Hcases by lia.
  repeat (destruct Hcases as [-> | Hcases]; [vm_compute; reflexivity |]).
  subst n. vm_compute. reflexivity.
Qed.

Lemma scheduled_sleep_lookup n :
  0 < n <= default_max_retries ->
  backoff_schedule !! Z.to_nat (n - 1) = Some (scheduled_sleep n).
Proof.
  unfold default_max_retries. intros Hn.
  assert (n = 1 \/ n = 2 \/ n = 3 \/ n = 4 \/ n = 5 \/
          n = 6 \/ n = 7 \/ n = 8 \/ n = 9 \/ n = 10) as Hcases by lia.
  repeat (destruct Hcases as [-> | Hcases]; [reflexivity |]).
  subst n. reflexivity.
Qed.

Lemma default_failed_rounds k :
  (k <= 10)%nat ->
  failed_rounds scheduled_sleep 0 k = flat_map failed_round (take k backoff_schedule).
Proof.
  intros Hk. do 11 (destruct k as [|k]; [reflexivity |]). lia.
Qed.

Lemma attempts_of_rounds (sleeps : list float) :
  length (List.filter is_attempt (flat_map failed_round sleeps)) = length sleeps /\
  length (List.filter is_failure (flat_map failed_round sleeps)) = length sleeps /\
  omap (fun e => match e with
                 | Logged path text =>
                     if String.eqb path failed_downloads then Some text else None
                 | _ => None
                 end) (flat_map failed_round sleeps) = [].
Proof.
  induction sleeps as [|s rest (IH1 & IH2 & IH3)]; simpl; [done |].
  rewrite IH1, IH2. repeat split. exact IH3.
Qed.

(** A run of [download_task] in the default configuration. *)
Lemma download_task_run replies tar url output_dir w :
  let run := download_task replies (tar, url) output_dir
               default_max_retries default_backoff_factor w in
  exists k ending evs,
    fst run = inl tt /\
    trace (snd run) = trace w ++ EvPrint (MsgStarting tar url) :: evs /\
    task_view evs =
      flat_map failed_round (take k backoff_schedule) ++ terminal_view tar ending /\
    (ending = Success /\ (k <= 10)%nat \/ ending = GaveUp /\ k = 10%nat) /\
    (OsPath.join output_dir tar <> failed_downloads ->
     disk (snd run) !! failed_downloads =
     match ending with
     | GaveUp => Some (default [] (disk w !! failed_downloads) ++
                       list_byte_of_string (tar +:+ newline))
     | _ => disk w !! failed_downloads
     end).
Proof.
  cbv zeta.
  change (download_task replies (tar, url) output_dir
            default_max_retries default_backoff_factor w)
    with (retry_loop replies tar url (OsPath.join output_dir tar)
            default_max_retries default_backoff_factor 0
            (World (disk w) (trace w ++ [EvPrint (MsgStarting tar url)]))).
  destruct (retry_loop_run replies tar url (OsPath.join output_dir tar)
              default_max_retries default_backoff_factor scheduled_sleep
              default_sleep_time 0
              (World (disk w) (trace w ++ [EvPrint (MsgStarting tar url)])))
    as (k & ending & evs & Hres & Htr & Hview & Hend & Hdisk); [lia |].
  unfold default_max_retries in Hend.
  assert (Hk : (k <= 10)%nat) by (destruct ending; lia).
  exists k, ending, evs. split; [done |].
  split; [rewrite Htr; simpl; by rewrite <- app_assoc |].
  split; [by rewrite Hview, default_failed_rounds |].
  split; [| exact Hdisk].
  destruct ending; [lia | left | right]; split; (done || lia).
Qed.

(** C2: with [max_retries = 10] and [backoff_factor = 0.5] a task makes at
    most [max_retries + 1] attempts; its run is [k <= 10] failed attempts,
    the [n]-th followed by the sleep number [n] of the schedule
    [0.5, 1, 2, 4, ...], and then either a successful attempt, after which
    nothing follows, or the eleventh failed attempt and the entry in the
    failure log.  The sleep after the [n]-th failed attempt, that is before
    attempt [n + 1], is the float the code computes, and stands for the
    number [1/2 * 2^(n-1)] exactly. *)
Theorem C2_retry_schedule (replies : Z -> http_result) (tar url output_dir : string)
    (d : gmap string (list Byte.byte)) :
  let run := download_task replies (tar, url) output_dir
               default_max_retries default_backoff_factor (World d []) in
  let tr := trace (snd run) in
  Z.of_nat (attempts tr) <= default_max_retries + 1 /\
  (exists k ending,
     task_view tr =
       flat_map failed_round (take k backoff_schedule) ++ terminal_view tar ending /\
     (ending = Success /\ (k <= 10)%nat \/ ending = GaveUp /\ k = 10%nat)) /\
  take 3 backoff_schedule = [0.5%float; 1%float; 2%float] /\
  (forall n, 1 <= n <= default_max_retries ->
     sleep_time default_backoff_factor n = Some (scheduled_sleep n) /\
     backoff_schedule !! Z.to_nat (n - 1) = Some (scheduled_sleep n) /\
     exact_value (scheduled_sleep n) =
       Some (Qred ((1 # 2) * inject_Z (2 ^ (n - 1))))).
Proof.
  cbv zeta.
  destruct (download_task_run replies tar url output_dir (World d []))
    as (k & ending & evs & _ & Htr & Hview & Hend & _).
  rewrite Htr. clear Htr. cbn [trace app].
  assert (Hv : task_view (EvPrint (MsgStarting tar url) :: evs) =
               flat_map failed_round (take k backoff_schedule) ++
               terminal_view tar ending)
    by (rewrite task_view_cons; exact Hview).
  split; [| split; [by exists k, ending | split; [reflexivity |]]].
  - unfold attempts. rewrite Hv, List.filter_app, length_app.
    destruct (attempts_of_rounds (take k backoff_schedule)) as (-> & _).
    rewrite length_take. unfold default_max_retries.
    destruct Hend as [[-> ?] | [-> ->]]; simpl; lia.
  - intros n Hn. split; [apply default_sleep_time; lia |].
    split; [apply scheduled_sleep_lookup; lia | apply scheduled_sleep_exact; lia].
Qed.

(** Two failures, then a success: the sleeps are 0.5 s and 1 s, and the
    third attempt is the last event. *)
Example recovers_after_two_failures :
  let run := download_task SampleTask.recovers SampleTask.task "raw/"
               default_max_retries default_backoff_factor (World ∅ []) in
  task_view (trace (snd run)) =
    [Attempt; AttemptFailed; Slept 0.5%float;
     Attempt; AttemptFailed; Slept 1%float;
     Attempt] /\
  disk (snd run) !! "raw/sa_000000.tar" = Some [x01; x02] /\
  disk (snd run) !! failed_downloads = None.
Proof. vm_compute. done. Qed.

(** C7: a task whose attempts all fail appends its identifier to the
    failure log exactly once, after the eleventh attempt, and returns
    normally; the log file then holds what it held followed by the
    identifier and a newline. *)
Theorem C7_exhaustion_logged_once (replies : Z -> http_result)
    (tar url output_dir : string) (d : gmap string (list Byte.byte)) :
  let run := download_task replies (tar, url) output_dir
               default_max_retries default_backoff_factor (World d []) in
  let tr := trace (snd run) in
  attempts tr = failures tr ->
  fst run = inl tt /\
  failure_log_appends tr = [tar +:+ newline] /\
  Z.of_nat (attempts tr) = default_max_retries + 1 /\
  (OsPath.join output_dir tar <> failed_downloads ->
   disk (snd run) !! failed_downloads =
   Some (default [] (d !! failed_downloads) ++ list_byte_of_string (tar +:+ newline))).
Proof.
  cbv zeta.
  destruct (download_task_run replies tar url output_dir (World d []))
    as (k & ending & evs & Hres & Htr & Hview & Hend & Hdisk).
  rewrite Htr. clear Htr. cbn [trace app].
  assert (Hv : task_view (EvPrint (MsgStarting tar url) :: evs) =
               flat_map failed_round (take k backoff_schedule) ++
               terminal_view tar ending)
    by (rewrite task_view_cons; exact Hview).
  unfold attempts, failures, failure_log_appends. rewrite Hv.
  rewrite !List.filter_app, !length_app, omap_app.
  destruct (attempts_of_rounds (take k backoff_schedule)) as (-> & -> & ->).
  rewrite length_take. unfold default_max_retries.
  destruct Hend as [[-> ?] | [-> ->]]; simpl.
  - intros Hall. lia.
  - intros _. split; [done |]. split; [done |]. split; [done |]. exact Hdisk.
Qed.

Lemma C7_exhaustion_logged_once_witness :
  let run := download_task SampleTask.always_down SampleTask.task "raw/"
               default_max_retries default_backoff_factor (World ∅ []) in
  let tr := trace (snd run) in
  attempts tr = failures tr /\
  fst run = inl tt /\
  failure_log_appends tr = ["sa_000000.tar" +:+ newline] /\
  Z.of_nat (attempts tr) = default_max_retries + 1 /\
  (OsPath.join "raw/" "sa_000000.tar" <> failed_downloads ->
   disk (snd run) !! failed_downloads =
   Some (default [] ((∅ : gmap string (list Byte.byte)) !! failed_downloads) ++
         list_byte_of_string ("sa_000000.tar" +:+ newline))).
Proof.
  cbv zeta.
  assert (H : attempts (trace (snd (download_task SampleTask.always_down
                 SampleTask.task "raw/" default_max_retries
                 default_backoff_factor (World ∅ [])))) =
              failures (trace (snd (download_task SampleTask.always_down
                 SampleTask.task "raw/" default_max_retries
                 default_backoff_factor (World ∅ [])))))
    by (vm_compute; reflexivity).
  split; [exact H |].
  exact (C7_exhaustion_logged_once SampleTask.always_down "sa_000000.tar"
           Sample.url "raw/" ∅ H).
Defined.

(** A task that succeeds leaves the failure log alone. *)
Lemma success_not_logged replies tar url output_dir d :
  let run := download_task replies (tar, url) output_dir
               default_max_retries default_backoff_factor (World d []) in
  attempts (trace (snd run)) <> failures (trace (snd run)) ->
  failure_log_appends (trace (snd run)) = [].
Proof.
  cbv zeta.
  destruct (download_task_run replies tar url output_dir (World d []))
    as (k & ending & evs & Hres & Htr & Hview & Hend & Hdisk).
  rewrite Htr. clear Htr. cbn [trace app].
  assert (Hv : task_view (EvPrint (MsgStarting tar url) :: evs) =
               flat_map failed_round (take k backoff_schedule) ++
               terminal_view tar ending)
    by (rewrite task_view_cons; exact Hview).
  unfold attempts, failures, failure_log_appends. rewrite Hv.
  rewrite !List.filter_app, !length_app, omap_app.
  destruct (attempts_of_rounds (take k backoff_schedule)) as (-> & -> & ->).
  destruct Hend as [[-> ?] | [-> ->]]; simpl; [done | lia].
Qed.

(** C10: whatever the replies to its attempts, that is however they
    succeed or raise, [download_task] returns normally: nothing raised by
    [download_file] leaves it. *)
Theorem C10_download_task_returns (replies : Z -> http_result)
    (args : string * string) (output_dir : string) (w : world) :
  fst (download_task replies args output_dir
         default_max_retries default_backoff_factor w) = inl tt.
Proof.
  destruct args as [tar url].
  destruct (download_task_run replies tar url output_dir w)
    as (k & ending & evs & Hres & _). exact Hres.
Qed.

(** With one worker, every task of the queue is started, whatever became
    of the tasks before it, and the loop over the tasks ends normally. *)
Lemma run_tasks_starts_all replies output_dir tasks w :
  fst (run_tasks replies output_dir tasks w) = inl tt /\
  (exists evs, trace (snd (run_tasks replies output_dir tasks w)) = trace w ++ evs) /\
  (forall tar url, In (tar, url) tasks ->
     In (EvPrint (MsgStarting tar url))
        (trace (snd (run_tasks replies output_dir tasks w)))).
Proof.
  revert w. induction tasks as [|[tar url] rest IH]; intros w; cbn [run_tasks].
  - unfold ret. simpl. split; [done |]. split; [| done].
    exists []. by rewrite app_nil_r.
  - unfold bind.
    destruct (download_task_run (replies (tar, url)) tar url output_dir w)
      as (k & ending & evs & Hres & Htr & _).
    destruct (download_task (replies (tar, url)) (tar, url) output_dir
                default_max_retries default_backoff_factor w) as [res w1].
    simpl in Hres, Htr. subst res. cbn iota.
    destruct (IH w1) as (Hres' & (evs' & Htr') & Hstarted).
    split; [done |]. split.
    + exists (EvPrint (MsgStarting tar url) :: evs ++ evs').
      rewrite Htr', Htr, <- app_assoc. done.
    + intros t u [[= <- <-] | Hin]; [| by apply Hstarted].
      rewrite Htr', Htr. apply in_or_app. left. apply in_or_app. right. by left.
Qed.

(* ===================================================================== *)
(** * More on [download_file] *)
(* ===================================================================== *)

(** The results of a call, by the way it went. *)
Ltac download_file_cases reply :=
  let detail := fresh "detail" in
  let r := fresh "r" in
  let Hok := fresh "Hok" in
  let Hcl := fresh "Hcl" in
  let H416 := fresh "H416" in
  destruct reply as [detail | r];
  [ rewrite download_file_get_raises
  | destruct (response_cases r) as [[Hok Hcl] | [[Hok Hcl] | [H416 | [Hok H416]]]];
    [ rewrite download_file_streamed by done;
      destruct (stream_error r);
      [| destruct (content_length r) as [[?|]|]; [| done |];
         [match goal with |- context [?a <=? ?b] => destruct (Z.leb_spec a b) end |] ]
    | rewrite download_file_bad_length by done
    | rewrite download_file_416 by done
    | rewrite download_file_bad_status by done ] ].






(** The disk of a call that streamed, whatever its outcome. *)
Lemma streamed_disk url path w r :
  ok_status r = true -> content_length r <> Some NotAnInt ->
  disk (snd (download_file (GetReturns r) url path w)) =
  fold_left (write_chunk path) (body r)
            (opened path (size_on_disk (disk w) path) (disk w)).
Proof.
  intros Hok Hcl. rewrite download_file_streamed by done.
  destruct (stream_error r);
    [| destruct (content_length r) as [[n|]|]; [| done |];
       [match goal with |- context [?a <=? ?b] => destruct (a <=? b) end |] ];
    reflexivity.
Qed.

(** The local file of a call that streamed, whatever its outcome. *)
Lemma streamed_file url path d r :
  ok_status r = true -> content_length r <> Some NotAnInt ->
  let run := download_file (GetReturns r) url path (World d []) in
  disk (snd run) !! path = Some (default [] (d !! path) ++ concat (body r)) /\
  size_on_disk (disk (snd run)) path = size_on_disk d path + received r.
Proof.
  intros Hst Hcl. cbv zeta.
  rewrite streamed_disk by done. cbn [disk].
  pose proof (streamed_content path d (body r)) as Hc. cbv zeta in Hc.
  assert (Hkept : (if 0 <? size_on_disk d path then default [] (d !! path) else [])
                  = default [] (d !! path)).
  { destruct (Z.ltb_spec 0 (size_on_disk d path)) as [|Hle]; [done |].
    unfold size_on_disk in Hle. destruct (d !! path) as [old|]; [| done].
    destruct old; [done | simpl in Hle; lia]. }
  rewrite Hkept in Hc. split; [exact Hc |].
  rewrite (size_on_disk_content _ _ _ Hc), length_app. unfold received.
  unfold size_on_disk. destruct (d !! path); simpl; lia.
Qed.

(** X4: after a 200 or 206 response the local file holds what it held
    before followed by the chunks received, in order, and its size has
    grown by the number of bytes received; this is so for every outcome,
    completed, short or broken stream: what was written is not rolled
    back. *)
Theorem X4_received_bytes_stay (url path : string)
    (d : gmap string (list Byte.byte)) (r : response) :
  status_code r = 200 \/ status_code r = 206 ->
  content_length r <> Some NotAnInt ->
  let run := download_file (GetReturns r) url path (World d []) in
  disk (snd run) !! path = Some (default [] (d !! path) ++ concat (body r)) /\
  size_on_disk (disk (snd run)) path = size_on_disk d path + received r.
Proof.
  intros Hst Hcl. apply ok_status_iff in Hst. by apply streamed_file.
Qed.

Lemma X4_received_bytes_stay_witness :
  (status_code SampleMore.broken = 200 \/ status_code SampleMore.broken = 206) /\
  content_length SampleMore.broken <> Some NotAnInt /\
  let run := download_file (GetReturns SampleMore.broken) Sample.url Sample.path
               (World Sample.partial_disk []) in
  disk (snd run) !! Sample.path =
    Some (default [] (Sample.partial_disk !! Sample.path) ++
          concat (body SampleMore.broken)) /\
  size_on_disk (disk (snd run)) Sample.path =
    size_on_disk Sample.partial_disk Sample.path + received SampleMore.broken.
Proof.
  assert (H : content_length SampleMore.broken <> Some NotAnInt) by (simpl; congruence).
  split; [right; reflexivity |]. split; [exact H |].
  exact (X4_received_bytes_stay Sample.url Sample.path Sample.partial_disk
           SampleMore.broken (or_intror eq_refl) H).
Defined.

(** X5: when the stream of a 200 or 206 response with Content-Length [n]
    ends, the outcome is decided by the number of bytes received: at least
    [n], and the fetch is Completed (a longer body is accepted); fewer, and
    it raises, the exception carrying the size on disk and the size
    expected. *)
Theorem X5_outcome_by_bytes_received (url path : string)
    (d : gmap string (list Byte.byte)) (r : response) (n : Z) :
  status_code r = 200 \/ status_code r = 206 ->
  content_length r = Some (IntValue n) ->
  stream_error r = None ->
  let run := download_file (GetReturns r) url path (World d []) in
  let current_size := size_on_disk d path in
  (n <= received r -> fst run = inl Completed) /\
  (received r < n ->
   fst run = inr (UnexpectedExit (current_size + received r) (n + current_size))).
Proof.
  intros Hst Hcl Hend. apply ok_status_iff in Hst. cbv zeta.
  assert (Hcl' : content_length r <> Some NotAnInt) by congruence.
  destruct (streamed_file url path d r Hst Hcl') as [_ Hsize].
  cbv zeta in Hsize. rewrite streamed_disk in Hsize by done.
  rewrite download_file_streamed by done. rewrite Hend, Hcl.
  cbn [disk] in *. rewrite Hsize.
  destruct (Z.leb_spec (n + size_on_disk d path) (size_on_disk d path + received r));
    simpl; split; intros; try done; lia.
Qed.

Lemma X5_outcome_by_bytes_received_witness :
  (status_code Sample.restarted = 200 \/ status_code Sample.restarted = 206) /\
  content_length Sample.restarted = Some (IntValue 10) /\
  stream_error Sample.restarted = None /\
  let run := download_file (GetReturns Sample.restarted) Sample.url Sample.path
               (World Sample.partial_disk []) in
  let current_size := size_on_disk Sample.partial_disk Sample.path in
  (10 <= received Sample.restarted -> fst run = inl Completed) /\
  (received Sample.restarted < 10 ->
   fst run = inr (UnexpectedExit (current_size + received Sample.restarted)
                                 (10 + current_size))).
Proof.
  split; [left; reflexivity |]. split; [reflexivity |]. split; [reflexivity |].
  apply (X5_outcome_by_bytes_received Sample.url Sample.path Sample.partial_disk
           Sample.restarted 10); [left; reflexivity | reflexivity | reflexivity].
Defined.

Lemma write_chunk_filter_data path chunks d :
  fold_left (write_chunk path) (List.filter is_data chunks) d =
  fold_left (write_chunk path) chunks d.
Proof.
  revert d. induction chunks as [|chunk rest IH]; intros d; [done |].
  destruct chunk; simpl; apply IH.
Qed.

Lemma chunk_events_filter_data path chunks :
  flat_map (chunk_events path) (List.filter is_data chunks) =
  flat_map (chunk_events path) chunks.
Proof.
  induction chunks as [|chunk rest IH]; [done |].
  destruct chunk; simpl; [exact IH | by rewrite IH].
Qed.

(** X6: empty chunks of the stream are not observable: a fetch has the
    same outcome, leaves the same disk and records the same events as if
    the response had come without them. *)
Theorem X6_keep_alive_chunks_unobservable (url path : string) (w : world)
    (r : response) :
  download_file (GetReturns r) url path w =
  download_file (GetReturns (without_keep_alives r)) url path w.
Proof.
  destruct (response_cases r) as [[Hok Hcl] | [[Hok Hcl] | [H416 | [Hok H416]]]].
  - rewrite !download_file_streamed by done. simpl.
    by rewrite write_chunk_filter_data, chunk_events_filter_data.
  - by rewrite !download_file_bad_length.
  - by rewrite !download_file_416.
  - by rewrite !download_file_bad_status.
Qed.

Lemma updates_of_chunks path chunks :
  sum_Z (updates_of (flat_map (chunk_events path) chunks)) =
  Z.of_nat (length (concat chunks)).
Proof.
  induction chunks as [|chunk rest IH]; [done |].
  cbn [flat_map concat]. unfold updates_of in *. rewrite omap_app, length_app.
  unfold sum_Z in *. rewrite foldr_app.
  destruct chunk as [|b chunk]; simpl in *; [lia |]. rewrite IH. lia.
Qed.

(** X7: when a fetch streams a 200 or 206 response, the progress bar is
    created at the size found on disk, and that position plus the amounts
    reported to the bar is the size of the file after the call. *)
Theorem X7_progress_bar_ends_at_file_size (url path : string)
    (d : gmap string (list Byte.byte)) (r : response) :
  status_code r = 200 \/ status_code r = 206 ->
  content_length r <> Some NotAnInt ->
  let run := download_file (GetReturns r) url path (World d []) in
  bar_initial (trace (snd run)) = Some (size_on_disk d path) /\
  size_on_disk d path + sum_Z (updates_of (trace (snd run))) =
    size_on_disk (disk (snd run)) path.
Proof.
  intros Hst Hcl. apply ok_status_iff in Hst. cbv zeta.
  destruct (streamed_file url path d r Hst Hcl) as [_ Hsize].
  cbv zeta in Hsize. rewrite Hsize. clear Hsize.
  assert (Hsum : forall after,
            (forall n, In (EvUpdate n) after -> False) ->
            sum_Z (updates_of (flat_map (chunk_events path) (body r) ++ after))
            = received r).
  { intros after Hafter. unfold updates_of. rewrite omap_app.
    unfold sum_Z. rewrite foldr_app.
    assert (omap (fun e => match e with EvUpdate n => Some n | _ => None end) after
            = []) as ->.
    { induction after as [|e after IH]; [done |]. simpl.
      destruct e; try (apply IH; intros n Hn; apply (Hafter n); by right).
      exfalso. apply (Hafter n). by left. }
    simpl. apply updates_of_chunks. }
  rewrite download_file_streamed by done.
  destruct (stream_error r);
    [| destruct (content_length r) as [[n|]|]; [| done |];
       [match goal with |- context [?a <=? ?b] => destruct (a <=? b) end |] ];
    cbn [snd trace app]; (split; [reflexivity |]);
    change (updates_of (?a :: ?b :: ?c :: ?e :: ?l)) with (updates_of l);
    rewrite ?Hsum; try done;
    try (intros ? [Hin | []]; discriminate Hin).
  unfold received. by rewrite updates_of_chunks.
Qed.

Lemma X7_progress_bar_ends_at_file_size_witness :
  (status_code SampleMore.broken = 200 \/ status_code SampleMore.broken = 206) /\
  content_length SampleMore.broken <> Some NotAnInt /\
  let run := download_file (GetReturns SampleMore.broken) Sample.url Sample.path
               (World Sample.partial_disk []) in
  bar_initial (trace (snd run)) = Some (size_on_disk Sample.partial_disk Sample.path) /\
  size_on_disk Sample.partial_disk Sample.path + sum_Z (updates_of (trace (snd run))) =
    size_on_disk (disk (snd run)) Sample.path.
Proof.
  assert (H : content_length SampleMore.broken <> Some NotAnInt) by (simpl; congruence).
  split; [right; reflexivity |]. split; [exact H |].
  exact (X7_progress_bar_ends_at_file_size Sample.url Sample.path Sample.partial_disk
           SampleMore.broken (or_intror eq_refl) H).
Defined.

(** X8: a second fetch, made on the disk a first fetch left after a 200
    or 206 response, resumes where the first stopped: if anything is on
    disk it asks for the bytes from the size before the first fetch plus
    the bytes that fetch received, and whatever it does the bytes of the
    first fetch stay at the start of the file. *)
Theorem X8_next_attempt_resumes (url path : string)
    (d : gmap string (list Byte.byte)) (r1 : response) (reply2 : http_result) :
  status_code r1 = 200 \/ status_code r1 = 206 ->
  content_length r1 <> Some NotAnInt ->
  0 < size_on_disk d path + received r1 ->
  let run1 := download_file (GetReturns r1) url path (World d []) in
  let run2 := download_file reply2 url path (World (disk (snd run1)) []) in
  requests_of (trace (snd run2)) =
    [(url, [("Range",
             "bytes=" +:+ pretty (size_on_disk d path + received r1) +:+ "-")])] /\
  exists added,
    disk (snd run2) !! path =
    Some (default [] (d !! path) ++ concat (body r1) ++ added).
Proof.
  intros Hst Hcl Hpos. apply ok_status_iff in Hst. cbv zeta.
  destruct (streamed_file url path d r1 Hst Hcl) as [Hfile Hsize].
  cbv zeta in Hfile, Hsize.
  destruct (download_file_requests_opens reply2 url path
              (disk (snd (download_file (GetReturns r1) url path (World d [])))))
    as [Hreq _].
  cbv zeta in Hreq. rewrite Hreq, Hsize. split.
  - unfold request_headers.
    destruct (Z.ltb_spec 0 (size_on_disk d path + received r1)); [done | lia].
  - destruct (download_file_keeps_prefix reply2 url path
                (World (disk (snd (download_file (GetReturns r1) url path (World d []))))
                       []) _ Hfile) as [added Hadded].
    exists added. rewrite Hadded. by rewrite <- app_assoc.
Qed.

Lemma X8_next_attempt_resumes_witness :
  (status_code SampleMore.broken = 200 \/ status_code SampleMore.broken = 206) /\
  content_length SampleMore.broken <> Some NotAnInt /\
  0 < size_on_disk Sample.partial_disk Sample.path + received SampleMore.broken /\
  let run1 := download_file (GetReturns SampleMore.broken) Sample.url Sample.path
                (World Sample.partial_disk []) in
  let run2 := download_file (GetReturns Sample.resumed) Sample.url Sample.path
                (World (disk (snd run1)) []) in
  requests_of (trace (snd run2)) =
    [(Sample.url,
      [("Range",
        "bytes=" +:+ pretty (size_on_disk Sample.partial_disk Sample.path
                             + received SampleMore.broken) +:+ "-")])] /\
  exists added,
    disk (snd run2) !! Sample.path =
    Some (default [] (Sample.partial_disk !! Sample.path) ++
          concat (body SampleMore.broken) ++ added).
Proof.
  assert (H : content_length SampleMore.broken <> Some NotAnInt) by (simpl; congruence).
  assert (Hpos : 0 < size_on_disk Sample.partial_disk Sample.path
                     + received SampleMore.broken) by (vm_compute; reflexivity).
  split; [right; reflexivity |]. split; [exact H |]. split; [exact Hpos |].
  exact (X8_next_attempt_resumes Sample.url Sample.path Sample.partial_disk
           SampleMore.broken (GetReturns Sample.resumed) (or_intror eq_refl) H Hpos).
Defined.

Lemma errors_of_chunks path chunks :
  errors_of (flat_map (chunk_events path) chunks) = [].
Proof. by apply omap_chunk_events. Qed.

(** X9: a fetch prints its error line exactly when it raises, once, and
    the line names the url and the exception that leaves the call; a fetch
    that returns prints no error line. *)
Theorem X9_failure_is_reported (reply : http_result) (url path : string)
    (d : gmap string (list Byte.byte)) :
  let run := download_file reply url path (World d []) in
  errors_of (trace (snd run)) =
  match fst run with
  | inr e => [(url, e)]
  | inl _ => []
  end.
Proof.
  cbv zeta. download_file_cases reply; simpl; try done;
    unfold errors_of; simpl; rewrite ?omap_app; simpl;
    rewrite (omap_chunk_events _ path) by done; done.
Qed.

(* ===================================================================== *)
(** * More on [load_tsv] and [iterate_retry] *)
(* ===================================================================== *)

Lemma load_tsv_line_step acc line :
  load_tsv_line acc line =
  (match record_of line with
   | Some (key, value) => <[key := value]> (fst acc)
   | None => fst acc
   end,
   snd acc ++ if is_invalid line then [MsgInvalidLine (PyStr.strip line)] else []).
Proof.
  destruct acc as [m out]. unfold load_tsv_line, record_of, is_invalid. simpl.
  destruct (PyStr.split tab (PyStr.strip line)) as [|key [|value rest]];
    simpl; try done.
  destruct (PyStr.endswith key ".tar"); by rewrite app_nil_r.
Qed.

Lemma load_tsv_fold lines acc k :
  fst (fold_left load_tsv_line lines acc) !! k =
  match last (values_for k (omap record_of lines)) with
  | Some v => Some v
  | None => fst acc !! k
  end /\
  snd (fold_left load_tsv_line lines acc) =
  snd acc ++ map (fun l => MsgInvalidLine (PyStr.strip l)) (List.filter is_invalid lines).
Proof.
  revert acc. induction lines as [|line rest IH]; intros acc.
  - simpl. by rewrite app_nil_r.
  - cbn [fold_left]. destruct (IH (load_tsv_line acc line)) as [IHm IHout].
    rewrite IHm, IHout, load_tsv_line_step. cbn [fst snd]. split.
    + change (omap record_of (line :: rest)) with
        (match record_of line with
         | Some rec => rec :: omap record_of rest
         | None => omap record_of rest
         end).
      destruct (record_of line) as [[key value]|]; [| done].
      change (values_for k ((key, value) :: omap record_of rest)) with
        (match (if decide (key = k) then Some value else None) with
         | Some v => v :: values_for k (omap record_of rest)
         | None => values_for k (omap record_of rest)
         end).
      destruct (decide (key = k)) as [-> | Hne].
      * destruct (values_for k (omap record_of rest)) as [|v vs] eqn:E.
        -- rewrite lookup_insert_eq. reflexivity.
        -- change (last (value :: v :: vs)) with (last (v :: vs)).
           destruct (last (v :: vs)) eqn:El; [reflexivity |].
           by apply last_None in El.
      * destruct (last (values_for k (omap record_of rest))); [done |].
        by rewrite lookup_insert_ne.
    + cbn [List.filter]. destruct (is_invalid line); simpl;
        by rewrite <- ?app_assoc, ?app_nil_r.
Qed.

Lemma load_tsv_lookup lines :
  exists map2url,
    load_tsv (Some lines) =
      (Some map2url,
       map (fun l => MsgInvalidLine (PyStr.strip l)) (List.filter is_invalid lines)) /\
    forall k, map2url !! k = last (values_for k (omap record_of lines)).
Proof.
  unfold load_tsv.
  pose proof (load_tsv_fold lines (∅, [])) as H.
  destruct (fold_left load_tsv_line lines (∅, [])) as [m out].
  exists m. split.
  - destruct (H "") as [_ Hout]. simpl in Hout. by rewrite Hout.
  - intros k. destruct (H k) as [Hm _]. simpl in Hm. rewrite Hm.
    rewrite lookup_empty. by destruct (last _).
Qed.

(** X10: the manifest [load_tsv] builds maps a key to the second field of
    the last line that has the key as its first field, among the lines with
    at least two tab-separated fields; keys that do not end in [.tar] are
    left out, and a key without such a line is absent. *)
Theorem X10_last_record_wins (lines : list string) :
  exists map2url,
    fst (load_tsv (Some lines)) = Some map2url /\
    forall k, map2url !! k = last (values_for k (omap record_of lines)).
Proof.
  destruct (load_tsv_lookup lines) as (m & Hload & Hm).
  exists m. by rewrite Hload.
Qed.

(** The sample manifest: the second [A.tar] line wins, [notes.txt] is
    left out, two lines are reported. *)
Example load_tsv_sample :
  load_tsv (Some SampleManifest.lines) =
  (Some SampleManifest.manifest,
   [MsgInvalidLine "no tab here"; MsgInvalidLine ""]).
Proof. vm_compute. reflexivity. Qed.

(** X11: [load_tsv] reports, in the order of the file, exactly the lines
    that have fewer than two tab-separated fields once stripped; a blank
    line is one of them, and a line whose key does not end in [.tar] is
    not: it is dropped without a word. *)
Theorem X11_invalid_lines_reported (lines : list string) :
  snd (load_tsv (Some lines)) =
    map (fun l => MsgInvalidLine (PyStr.strip l)) (List.filter is_invalid lines) /\
  (forall line, PyStr.strip line = "" -> is_invalid line = true) /\
  (forall line key value rest,
     PyStr.split tab (PyStr.strip line) = key :: value :: rest ->
     PyStr.endswith key ".tar" = false ->
     is_invalid line = false /\ record_of line = None).
Proof.
  destruct (load_tsv_lookup lines) as (m & Hload & _). rewrite Hload.
  split; [done |]. split.
  - intros line Hblank. unfold is_invalid. by rewrite Hblank.
  - intros line key value rest Hsplit Hsuf. unfold is_invalid, record_of.
    by rewrite Hsplit, Hsuf.
Qed.

(** X12: on a manifest built by [load_tsv], every task [iterate_retry]
    yields, with or without a retry file, has a target that ends in [.tar]
    and a non-empty URL, and the URL is the second field of the last
    manifest line for that target. *)
Theorem X12_tasks_of_loaded_manifest (lines : list string)
    (retry_file : option (list string)) (map2url : gmap string string)
    (tar url : string) :
  fst (load_tsv (Some lines)) = Some map2url ->
  In (tar, url) (fst (iterate_retry retry_file map2url)) ->
  PyStr.endswith tar ".tar" = true /\
  url <> "" /\
  last (values_for tar (omap record_of lines)) = Some url.
Proof.
  intros Hload Hin. rewrite iterate_retry_unfold in Hin. cbv zeta in Hin.
  cbn [fst] in Hin. apply In_tasks in Hin as (_ & Hm & Hu).
  split; [apply (load_tsv_keys lines map2url Hload); by rewrite Hm |].
  split; [exact Hu |].
  destruct (load_tsv_lookup lines) as (m & Hload' & Hlookup).
  rewrite Hload' in Hload. injection Hload as <-. by rewrite <- Hlookup.
Qed.

Lemma X12_tasks_of_loaded_manifest_witness :
  fst (load_tsv (Some SampleManifest.lines)) = Some SampleManifest.manifest /\
  In ("A.tar", "new") (fst (iterate_retry None SampleManifest.manifest)) /\
  PyStr.endswith "A.tar" ".tar" = true /\
  "new" <> "" /\
  last (values_for "A.tar" (omap record_of SampleManifest.lines)) = Some "new".
Proof.
  assert (H1 : fst (load_tsv (Some SampleManifest.lines)) = Some SampleManifest.manifest)
    by (vm_compute; reflexivity).
  assert (H2 : In ("A.tar", "new") (fst (iterate_retry None SampleManifest.manifest)))
    by (vm_compute; left; reflexivity).
  split; [exact H1 |]. split; [exact H2 |].
  exact (X12_tasks_of_loaded_manifest SampleManifest.lines None
           SampleManifest.manifest "A.tar" "new" H1 H2).
Defined.

Lemma list_filter_partition {A} (f : A -> bool) (l : list A) :
  l ≡ₚ List.filter f l ++ List.filter (fun x => negb (f x)) l.
Proof.
  induction l as [|x l IH]; [done |]. simpl.
  destruct (f x); simpl.
  - by rewrite <- IH.
  - rewrite <- Permutation_middle. by rewrite <- IH.
Qed.

Lemma warned_no_url tars : warned (map MsgNoURL tars) = tars.
Proof. induction tars as [|t tars IH]; [done |]. simpl. unfold warned in *. simpl. by rewrite IH. Qed.

(** X13: [iterate_retry] loses no identifier silently: the identifiers it
    set out to download, all manifest targets or the lines of the retry
    file, are the targets of the tasks together with the identifiers named
    in the warnings; in particular there are as many tasks and warnings as
    identifiers. *)
Theorem X13_task_or_warning (retry_file : option (list string))
    (map2url : gmap string string) :
  let tasks := fst (iterate_retry retry_file map2url) in
  let out := snd (iterate_retry retry_file map2url) in
  let tars := fst (to_downloads retry_file map2url) in
  tars ≡ₚ map fst tasks ++ warned out /\
  length tars = (length tasks + length (warned out))%nat.
Proof.
  cbv zeta. rewrite iterate_retry_unfold. cbv zeta. cbn [fst snd].
  rewrite tasks_targets.
  assert (Hw : warned (snd (to_downloads retry_file map2url) ++
                 map MsgNoURL (List.filter (fun tar => negb (has_url map2url tar))
                                 (fst (to_downloads retry_file map2url))))
               = List.filter (fun tar => negb (has_url map2url tar))
                   (fst (to_downloads retry_file map2url))).
  { unfold warned at 1. rewrite omap_app. fold (warned (map MsgNoURL
      (List.filter (fun tar => negb (has_url map2url tar))
         (fst (to_downloads retry_file map2url))))).
    rewrite warned_no_url, to_downloads_selection.
    destruct (selection retry_file); [destruct retry_file |]; reflexivity. }
  rewrite Hw.
  pose proof (list_filter_partition (has_url map2url)
                (fst (to_downloads retry_file map2url))) as Hp.
  split; [exact Hp |].
  rewrite Hp at 1. rewrite length_app.
  f_equal. rewrite <- (tasks_targets map2url). by rewrite length_map.
Qed.

(** X14: a retry file that has only blank lines selects what a missing
    retry file selects: the tasks are the same, and so are the warnings
    after the first line printed, which tells the two cases apart. *)
Theorem X14_blank_retry_file_selects_all (lines : list string)
    (map2url : gmap string string) :
  (forall line, In line lines -> PyStr.strip line = "") ->
  fst (iterate_retry (Some lines) map2url) = fst (iterate_retry None map2url) /\
  snd (iterate_retry (Some lines) map2url) =
    MsgRetryFileEmpty :: tail (snd (iterate_retry None map2url)) /\
  head (snd (iterate_retry None map2url)) = Some MsgNoRetryFile.
Proof.
  intros Hblank.
  assert (Hsel : stripped_lines lines = []).
  { unfold stripped_lines. induction lines as [|l ls IH]; [done |].
    simpl. rewrite (Hblank l) by (by left). simpl. apply IH.
    intros line Hin. apply Hblank. by right. }
  rewrite !iterate_retry_unfold. cbv zeta. simpl. rewrite Hsel. done.
Qed.

Lemma X14_blank_retry_file_selects_all_witness :
  (forall line, In line SampleManifest.blank_retry -> PyStr.strip line = "") /\
  fst (iterate_retry (Some SampleManifest.blank_retry) SampleManifest.manifest) =
    fst (iterate_retry None SampleManifest.manifest) /\
  snd (iterate_retry (Some SampleManifest.blank_retry) SampleManifest.manifest) =
    MsgRetryFileEmpty :: tail (snd (iterate_retry None SampleManifest.manifest)) /\
  head (snd (iterate_retry None SampleManifest.manifest)) = Some MsgNoRetryFile.
Proof.
  assert (H : forall line, In line SampleManifest.blank_retry -> PyStr.strip line = "").
  { intros line [<- | [<- | []]]; vm_compute; reflexivity. }
  split; [exact H |].
  exact (X14_blank_retry_file_selects_all SampleManifest.blank_retry
           SampleManifest.manifest H).
Defined.

(* ===================================================================== *)
(** * More on [download_task] *)
(* ===================================================================== *)

Section AnyBudget.

Variable replies : Z -> http_result.
Variables tar url local_path : string.
Variable max_retries : Z.
Variable backoff_factor : float.

Local Abbreviation loop :=
  (retry_loop replies tar url local_path max_retries backoff_factor).

(** Whatever the budget and the backoff factor, the loop changes no file
    but the local file and the failure log. *)
Lemma retry_loop_frame retries w other :
  other <> local_path -> other <> failed_downloads ->
  disk (snd (loop retries w)) !! other = disk w !! other.
Proof.
  intros Hlocal Hlog. funelim (loop retries w); try done.
  - pose proof (download_file_frame (replies retries) url local_path w other Hlocal) as Hf.
    match goal with H : download_file _ _ _ _ = _ |- _ => rewrite H in Hf end. done.
  - pose proof (download_file_frame (replies retries) url local_path w other Hlocal) as Hf.
    match goal with H : download_file _ _ _ _ = _ |- _ => rewrite H in Hf end.
    destruct (log_failure_run tar w1) as (_ & _ & _ & Hother).
    rewrite Hother by done. done.
  - pose proof (download_file_frame (replies retries) url local_path w other Hlocal) as Hf.
    match goal with H : download_file _ _ _ _ = _ |- _ => rewrite H in Hf end.
    match goal with IH : forall o, _ -> _ -> disk _ !! _ = _ |- _ =>
      rewrite IH by done end.
    done.
  - pose proof (download_file_frame (replies retries) url local_path w other Hlocal) as Hf.
    match goal with H : download_file _ _ _ _ = _ |- _ => rewrite H in Hf end. done.
Qed.

(** Whatever the budget and the backoff factor, the loop makes no more
    attempts than the budget has left. *)
Lemma retry_loop_attempts retries w :
  exists evs,
    trace (snd (loop retries w)) = trace w ++ evs /\
    Z.of_nat (length (List.filter is_attempt (task_view evs)))
    <= Z.max 0 (max_retries + 1 - retries).
Proof.
  funelim (loop retries w).
  - exists []. rewrite app_nil_r. split; [done |]. simpl. lia.
  - destruct (download_file_view (replies retries) url local_path w)
      as (evs & Htr & Hview).
    match goal with H : download_file _ _ _ _ = _ |- _ => rewrite H in Htr, Hview end.
    exists evs. split; [done |]. simpl in Hview. rewrite Hview. simpl. lia.
  - destruct (download_file_view (replies retries) url local_path w)
      as (evs & Htr & Hview).
    match goal with H : download_file _ _ _ _ = _ |- _ => rewrite H in Htr, Hview end.
    simpl in Htr, Hview.
    destruct (log_failure_run tar w1) as (_ & Htr' & _).
    eexists. split; [rewrite Htr', Htr, <- app_assoc; reflexivity |].
    rewrite task_view_app, Hview. simpl. lia.
  - destruct (download_file_view (replies retries) url local_path w)
      as (evs & Htr & Hview).
    match goal with H : download_file _ _ _ _ = _ |- _ => rewrite H in Htr, Hview end.
    simpl in Htr, Hview.
    match goal with H : (_ >? _) = false |- _ =>
      rewrite Z.gtb_ltb in H; apply Z.ltb_ge in H end.
    match goal with IH : exists _, _ |- _ => destruct IH as (evs' & Htr' & Hn) end.
    eexists. split;
      [rewrite Htr'; unfold back_off; simpl; rewrite Htr, <- !app_assoc; reflexivity |].
    rewrite !task_view_app, Hview, !List.filter_app, !length_app. simpl. lia.
  - destruct (download_file_view (replies retries) url local_path w)
      as (evs & Htr & Hview).
    match goal with H : download_file _ _ _ _ = _ |- _ => rewrite H in Htr, Hview end.
    exists evs. split; [done |]. simpl in Hview. rewrite Hview. simpl. lia.
Qed.

(** The two ways the loop ends at once. *)
Lemma retry_loop_success retries w f w1 :
  retries <= max_retries ->
  download_file (replies retries) url local_path w = (inl f, w1) ->
  loop retries w = (inl tt, w1).
Proof.
  intros Hle Hdf. funelim (loop retries w); try lia;
    match goal with
    | H1 : download_file ?a ?b ?c ?d = _, H2 : download_file ?a ?b ?c ?d = _ |- _ =>
        rewrite H1 in H2
    end;
    congruence.
Qed.

Lemma retry_loop_exhausted retries w e w1 :
  retries = max_retries ->
  download_file (replies retries) url local_path w = (inr e, w1) ->
  loop retries w = log_failure tar w1.
Proof.
  intros Hle Hdf. funelim (loop retries w); try lia;
    match goal with
    | H1 : download_file ?a ?b ?c ?d = _, H2 : download_file ?a ?b ?c ?d = _ |- _ =>
        rewrite H1 in H2
    end;
    try congruence;
    match goal with H : (_ >? _) = false |- _ =>
      rewrite Z.gtb_ltb in H; apply Z.ltb_ge in H; lia end.
Qed.

End AnyBudget.

Lemma download_task_unfold replies tar url output_dir max_retries backoff_factor w :
  download_task replies (tar, url) output_dir max_retries backoff_factor w =
  retry_loop replies tar url (OsPath.join output_dir tar) max_retries backoff_factor 0
    (World (disk w) (trace w ++ [EvPrint (MsgStarting tar url)])).
Proof. reflexivity. Qed.

(** X15: with a negative [max_retries] the task makes no attempt at all:
    it prints its start line and returns, with no request, no sleep, no
    entry in the failure log and the disk as it was. *)
Theorem X15_negative_budget_does_nothing (replies : Z -> http_result)
    (tar url output_dir : string) (max_retries : Z) (backoff_factor : float)
    (w : world) :
  max_retries < 0 ->
  download_task replies (tar, url) output_dir max_retries backoff_factor w =
  (inl tt, World (disk w) (trace w ++ [EvPrint (MsgStarting tar url)])).
Proof.
  intros Hneg. rewrite download_task_unfold. simp retry_loop.
  destruct (Z_le_gt_dec 0 max_retries); [lia | reflexivity].
Qed.

Lemma X15_negative_budget_does_nothing_witness :
  -1 < 0 /\
  download_task SampleTask.always_down ("sa_000000.tar", Sample.url) "raw/" (-1)
    default_backoff_factor (World ∅ []) =
  (inl tt, World ∅ ([] ++ [EvPrint (MsgStarting "sa_000000.tar" Sample.url)])).
Proof.
  assert (H : -1 < 0) by lia.
  split; [exact H |].
  exact (X15_negative_budget_does_nothing SampleTask.always_down "sa_000000.tar"
           Sample.url "raw/" (-1) default_backoff_factor (World ∅ []) H).
Defined.

(** X16: with [max_retries = 0] the task makes exactly one attempt and
    never sleeps, whatever the backoff factor: if the fetch returns the
    task is done, and if it raises the identifier goes to the failure log
    at once; either way the task returns normally. *)
Theorem X16_zero_budget_single_attempt (replies : Z -> http_result)
    (tar url output_dir : string) (backoff_factor : float)
    (d : gmap string (list Byte.byte)) :
  let run := download_task replies (tar, url) output_dir 0 backoff_factor (World d []) in
  let fetch := download_file (replies 0) url (OsPath.join output_dir tar)
                 (World d [EvPrint (MsgStarting tar url)]) in
  fst run = inl tt /\
  attempts (trace (snd run)) = 1%nat /\
  sleeps_of (trace (snd run)) = [] /\
  failure_log_appends (trace (snd run)) =
    match fst fetch with
    | inl _ => []
    | inr _ => [tar +:+ newline]
    end.
Proof.
  cbv zeta. rewrite download_task_unfold. cbn [disk trace app].
  destruct (download_file_view (replies 0) url (OsPath.join output_dir tar)
              (World d [EvPrint (MsgStarting tar url)])) as (evs & Htr & Hview).
  destruct (download_file (replies 0) url (OsPath.join output_dir tar)
              (World d [EvPrint (MsgStarting tar url)])) as [[f|e] w1] eqn:Hdf;
    cbn [fst snd trace app] in *.
  - rewrite (retry_loop_success _ _ _ _ _ _ _ _ f w1) by (done || lia).
    unfold attempts, sleeps_of, failure_log_appends. cbn [fst snd]. rewrite Htr.
    rewrite ?task_view_app, ?task_view_cons. simpl. rewrite Hview. done.
  - rewrite (retry_loop_exhausted _ _ _ _ _ _ _ _ e w1) by done.
    destruct (log_failure_run tar w1) as (Hres & Htr' & _).
    unfold attempts, sleeps_of, failure_log_appends. rewrite Hres, Htr', Htr.
    rewrite ?task_view_app, ?task_view_cons. simpl. rewrite Hview. done.
Qed.

(** X17: whatever the replies, the budget and the backoff factor, a task
    changes no file but its local file and the failure log. *)
Theorem X17_task_touches_two_files (replies : Z -> http_result)
    (tar url output_dir : string) (max_retries : Z) (backoff_factor : float)
    (w : world) (other : string) :
  other <> OsPath.join output_dir tar ->
  other <> failed_downloads ->
  disk (snd (download_task replies (tar, url) output_dir max_retries
               backoff_factor w)) !! other
  = disk w !! other.
Proof.
  intros Hlocal Hlog. rewrite download_task_unfold.
  by rewrite retry_loop_frame.
Qed.

Lemma X17_task_touches_two_files_witness :
  "raw/other.tar" <> OsPath.join "raw/" "sa_000000.tar" /\
  "raw/other.tar" <> failed_downloads /\
  disk (snd (download_task SampleTask.recovers ("sa_000000.tar", Sample.url) "raw/"
               default_max_retries default_backoff_factor
               (World {[ "raw/other.tar" := [x01] ]} []))) !! "raw/other.tar"
  = disk (World {[ "raw/other.tar" := [x01] ]} []) !! "raw/other.tar".
Proof.
  assert (H1 : "raw/other.tar" <> OsPath.join "raw/" "sa_000000.tar")
    by (vm_compute; discriminate).
  assert (H2 : "raw/other.tar" <> failed_downloads) by (vm_compute; discriminate).
  split; [exact H1 |]. split; [exact H2 |].
  exact (X17_task_touches_two_files SampleTask.recovers "sa_000000.tar" Sample.url
           "raw/" default_max_retries default_backoff_factor
           (World {[ "raw/other.tar" := [x01] ]} []) "raw/other.tar" H1 H2).
Defined.

(** X18: whatever the budget and the backoff factor, a task makes at most
    [max_retries + 1] attempts, and none when [max_retries] is negative. *)
Theorem X18_attempts_within_budget (replies : Z -> http_result)
    (tar url output_dir : string) (max_retries : Z) (backoff_factor : float)
    (d : gmap string (list Byte.byte)) :
  let run := download_task replies (tar, url) output_dir max_retries
               backoff_factor (World d []) in
  Z.of_nat (attempts (trace (snd run))) <= Z.max 0 (max_retries + 1).
Proof.
  cbv zeta. rewrite download_task_unfold.
  destruct (retry_loop_attempts replies tar url (OsPath.join output_dir tar)
              max_retries backoff_factor 0
              (World d ([] ++ [EvPrint (MsgStarting tar url)])))
    as (evs & Htr & Hn).
  cbn [disk trace] in *. rewrite Htr. unfold attempts.
  rewrite task_view_app. simpl. lia.
Qed.

(** X19: a task whose first fetch returns does nothing more than print
    its start line and fetch once: it returns with the world that fetch
    left, whatever the budget (if not negative) and the backoff factor. *)
Theorem X19_first_success_is_one_fetch (replies : Z -> http_result)
    (tar url output_dir : string) (max_retries : Z) (backoff_factor : float)
    (w : world) :
  0 <= max_retries ->
  let started := World (disk w) (trace w ++ [EvPrint (MsgStarting tar url)]) in
  let fetch := download_file (replies 0) url (OsPath.join output_dir tar) started in
  ~ failed (fst fetch) ->
  download_task replies (tar, url) output_dir max_retries backoff_factor w
  = (inl tt, snd fetch).
Proof.
  intros Hmax. cbv zeta. intros Hok. rewrite download_task_unfold.
  destruct (download_file (replies 0) url (OsPath.join output_dir tar)
              (World (disk w) (trace w ++ [EvPrint (MsgStarting tar url)])))
    as [[f|e] w1] eqn:Hdf; simpl in Hok; [| tauto].
  by rewrite (retry_loop_success _ _ _ _ _ _ _ _ f w1).
Qed.

Lemma X19_first_success_is_one_fetch_witness :
  0 <= default_max_retries /\
  let started := World (disk (World Sample.partial_disk []))
                   (trace (World Sample.partial_disk []) ++
                    [EvPrint (MsgStarting "sa_000000.tar" Sample.url)]) in
  let fetch := download_file (GetReturns Sample.resumed) Sample.url
                 (OsPath.join "raw/" "sa_000000.tar") started in
  ~ failed (fst fetch) /\
  download_task (fun _ => GetReturns Sample.resumed) ("sa_000000.tar", Sample.url)
    "raw/" default_max_retries default_backoff_factor (World Sample.partial_disk [])
  = (inl tt, snd fetch).
Proof.
  assert (H1 : 0 <= default_max_retries) by (unfold default_max_retries; lia).
  assert (H2 : ~ failed (fst (download_file (GetReturns Sample.resumed) Sample.url
                   (OsPath.join "raw/" "sa_000000.tar")
                   (World (disk (World Sample.partial_disk []))
                      (trace (World Sample.partial_disk []) ++
                       [EvPrint (MsgStarting "sa_000000.tar" Sample.url)])))))
    by (vm_compute; tauto).
  split; [exact H1 |]. cbv zeta. split; [exact H2 |].
  exact (X19_first_success_is_one_fetch (fun _ => GetReturns Sample.resumed)
           "sa_000000.tar" Sample.url "raw/" default_max_retries
           default_backoff_factor (World Sample.partial_disk []) H1 H2).
Defined.

(* ===================================================================== *)
(** * Targets and the failure log *)
(* ===================================================================== *)

Lemma string_app_cons (x : ascii) (a b : string) :
  String x a +:+ b = String x (a +:+ b).
Proof. reflexivity. Qed.

Lemma string_app_nil_r (a : string) : a +:+ "" = a.
Proof. induction a as [|x a IH]; [done |]. by rewrite string_app_cons, IH. Qed.

Lemma string_app_assoc (a b c : string) : (a +:+ b) +:+ c = a +:+ (b +:+ c).
Proof.
  induction a as [|x a IH]; [done |]. by rewrite !string_app_cons, IH.
Qed.

Lemma rev_string_app (a b : string) :
  PyStr.rev_string (a +:+ b) = PyStr.rev_string b +:+ PyStr.rev_string a.
Proof.
  induction a as [|x a IH].
  - change ("" +:+ b) with b. by rewrite string_app_nil_r.
  - rewrite string_app_cons. cbn [PyStr.rev_string]. rewrite IH.
    apply string_app_assoc.
Qed.

Lemma prefix_app (p s t : string) :
  String.prefix p s = true -> String.prefix p (s +:+ t) = true.
Proof.
  revert s. induction p as [|x p IH]; intros s.
  - intros _. by destruct (s +:+ t).
  - destruct s as [|y s]; [done |]. rewrite string_app_cons. simpl.
    destruct (Ascii.ascii_dec x y); [apply IH | done].
Qed.

Lemma endswith_app (a b suffix : string) :
  PyStr.endswith b suffix = true -> PyStr.endswith (a +:+ b) suffix = true.
Proof. unfold PyStr.endswith. rewrite rev_string_app. apply prefix_app. Qed.

(** The local path of a target ends as the target does. *)
Lemma endswith_join (output_dir tar suffix : string) :
  PyStr.endswith tar suffix = true ->
  PyStr.endswith (OsPath.join output_dir tar) suffix = true.
Proof.
  intros H. unfold OsPath.join.
  destruct (PyStr.startswith tar "/"); [done |].
  destruct (negb (PyStr.truthy output_dir) || PyStr.endswith output_dir "/").
  - by apply endswith_app.
  - apply endswith_app. by apply (endswith_app "/").
Qed.

Lemma tar_path_is_not_the_log (output_dir tar : string) :
  PyStr.endswith tar ".tar" = true ->
  OsPath.join output_dir tar <> failed_downloads.
Proof.
  intros H Heq. apply (endswith_join output_dir) in H. rewrite Heq in H.
  vm_compute in H. discriminate H.
Qed.

Lemma run_counts (tar : string) (k : nat) (ending : terminal) :
  let view := flat_map failed_round (take k backoff_schedule) ++ terminal_view tar ending in
  (k <= 10)%nat -> ending <> NotEntered ->
  length (List.filter is_attempt view) = S k /\
  length (List.filter is_failure view) =
    (match ending with GaveUp => S k | _ => k end) /\
  omap (fun e => match e with
                 | Logged path text =>
                     if String.eqb path failed_downloads then Some text else None
                 | _ => None
                 end) view
  = match ending with GaveUp => [tar +:+ newline] | _ => [] end /\
  omap (fun e => match e with Slept secs => Some secs | _ => None end) view
  = take k backoff_schedule.
Proof.
  cbv zeta. intros Hk Hending.
  rewrite !List.filter_app, !length_app, !omap_app.
  destruct (attempts_of_rounds (take k backoff_schedule)) as (-> & -> & ->).
  rewrite length_take.
  assert (Hs : omap (fun e => match e with Slept secs => Some secs | _ => None end)
                 (flat_map failed_round (take k backoff_schedule))
               = take k backoff_schedule).
  { induction (take k backoff_schedule) as [|s l IH]; [done |]. simpl. by f_equal. }
  rewrite Hs. simpl length.
  destruct ending; [done | |]; simpl; rewrite ?app_nil_r; repeat split; lia.
Qed.

(** X20: for a target that ends in [.tar], as every manifest target does,
    the local path is never the failure log, and after the task the
    failure log file holds what it held followed by the target and a
    newline if every attempt failed, and is as it was otherwise, with no
    entry appended. *)
Theorem X20_failure_log_after_task (replies : Z -> http_result)
    (tar url output_dir : string) (d : gmap string (list Byte.byte)) :
  PyStr.endswith tar ".tar" = true ->
  let run := download_task replies (tar, url) output_dir
               default_max_retries default_backoff_factor (World d []) in
  let tr := trace (snd run) in
  OsPath.join output_dir tar <> failed_downloads /\
  (attempts tr = failures tr ->
   disk (snd run) !! failed_downloads =
   Some (default [] (d !! failed_downloads) ++ list_byte_of_string (tar +:+ newline))) /\
  (attempts tr <> failures tr ->
   disk (snd run) !! failed_downloads = d !! failed_downloads /\
   failure_log_appends tr = []).
Proof.
  intros Hsuffix. cbv zeta.
  pose proof (tar_path_is_not_the_log output_dir tar Hsuffix) as Hpath.
  split; [exact Hpath |].
  destruct (download_task_run replies tar url output_dir (World d []))
    as (k & ending & evs & Hres & Htr & Hview & Hend & Hdisk).
  specialize (Hdisk Hpath). rewrite Htr. cbn [trace app disk] in *.
  unfold attempts, failures, failure_log_appends.
  rewrite task_view_cons. simpl. rewrite Hview.
  assert (Hk : (k <= 10)%nat /\ ending <> NotEntered)
    by (destruct Hend as [[-> ?] | [-> ->]]; split; (done || lia)).
  destruct (run_counts tar k ending (proj1 Hk) (proj2 Hk)) as (-> & -> & -> & _).
  destruct Hend as [[-> ?] | [-> ->]]; split; intros; try lia; try done.
Qed.

Lemma X20_failure_log_after_task_witness :
  PyStr.endswith "sa_000000.tar" ".tar" = true /\
  let run := download_task SampleTask.always_down ("sa_000000.tar", Sample.url) "raw/"
               default_max_retries default_backoff_factor (World ∅ []) in
  let tr := trace (snd run) in
  OsPath.join "raw/" "sa_000000.tar" <> failed_downloads /\
  (attempts tr = failures tr ->
   disk (snd run) !! failed_downloads =
   Some (default [] ((∅ : gmap string (list Byte.byte)) !! failed_downloads) ++
         list_byte_of_string ("sa_000000.tar" +:+ newline))) /\
  (attempts tr <> failures tr ->
   disk (snd run) !! failed_downloads =
     (∅ : gmap string (list Byte.byte)) !! failed_downloads /\
   failure_log_appends tr = []).
Proof.
  assert (H : PyStr.endswith "sa_000000.tar" ".tar" = true) by (vm_compute; reflexivity).
  split; [exact H |].
  exact (X20_failure_log_after_task SampleTask.always_down "sa_000000.tar" Sample.url
           "raw/" ∅ H).
Defined.

(** X21: in the default configuration the sleeps of a task are the first
    sleeps of the schedule 0.5, 1, 2, ..., 256, ten at most, so that after
    [k] sleeps the task has slept [(2^k - 1) / 2] seconds in all, and never
    more than 511.5 seconds. *)
Theorem X21_total_backoff_bounded (replies : Z -> http_result)
    (tar url output_dir : string) (d : gmap string (list Byte.byte)) :
  let run := download_task replies (tar, url) output_dir
               default_max_retries default_backoff_factor (World d []) in
  let tr := trace (snd run) in
  let k := length (sleeps_of tr) in
  (k <= 10)%nat /\
  sleeps_of tr = take k backoff_schedule /\
  Qeq (slept_seconds tr) (inject_Z (2 ^ Z.of_nat k - 1) / inject_Z 2) /\
  Qle (slept_seconds tr) (1023 # 2).
Proof.
  cbv zeta.
  destruct (download_task_run replies tar url output_dir (World d []))
    as (k & ending & evs & _ & Htr & Hview & Hend & _).
  assert (Hk : (k <= 10)%nat /\ ending <> NotEntered)
    by (destruct Hend as [[-> ?] | [-> ->]]; split; (done || lia)).
  destruct (run_counts tar k ending (proj1 Hk) (proj2 Hk)) as (_ & _ & _ & Hs).
  assert (Hsleeps : sleeps_of (trace (snd (download_task replies (tar, url) output_dir
                      default_max_retries default_backoff_factor (World d []))))
                    = take k backoff_schedule).
  { rewrite Htr. cbn [trace app]. unfold sleeps_of.
    rewrite task_view_cons. simpl. by rewrite Hview. }
  unfold slept_seconds. rewrite Hsleeps. destruct Hk as [Hk _]. clear -Hk.
  do 11 (destruct k as [|k];
         [vm_compute; repeat split; (reflexivity || discriminate || lia) |]).
  lia.
Qed.
